(** * NightCare backend ([backend.py]): a shallow embedding and its properties

    The program is a small JSON-over-HTTP service backed by an SQLite file:
    login by phone, a keyword triage of a symptom description, a doctor
    directory, ambulance booking and a blood-bank lookup.

    Modelling conventions.
    - Python [str] values are [string]s of ASCII characters; [lower], [upper]
      and [strip] are Python's methods on that range.  Text outside ASCII is
      not covered by the model.
    - What the standard library computes from the raw request is part of the
      request record: the integer read off the Content-Length header, and
      what [bytes.decode] and [json.loads] make of the bytes read.
    - A handler either sends a response or lets a Python exception escape
      (the connection is then closed without a response).
    - The SQLite file is a record of four tables, rows in rowid order, with
      the AUTOINCREMENT counters of [sqlite_sequence].  Rowids are unbounded
      integers: the 64-bit limit of the engine is not modelled. *)

From Stdlib Require Import Bool List String Ascii ZArith QArith Lia.
From Stdlib Require Import Permutation Sorted.
Import ListNotations.
Local Open Scope string_scope.
Local Open Scope Z_scope.

Set Implicit Arguments.

(** ** Python strings *)

Module Str.

(** [str.isspace] on one ASCII character: TAB, LF, VT, FF, CR, the four
    separators FS, GS, RS, US, and the space. *)
Definition isspace (c : ascii) : bool :=
  let n := nat_of_ascii c in
  ((9 <=? n)%nat && (n <=? 13)%nat) || ((28 <=? n)%nat && (n <=? 32)%nat).

Definition lower_char (c : ascii) : ascii :=
  let n := nat_of_ascii c in
  if ((65 <=? n)%nat && (n <=? 90)%nat) then ascii_of_nat (n + 32) else c.

Definition upper_char (c : ascii) : ascii :=
  let n := nat_of_ascii c in
  if ((97 <=? n)%nat && (n <=? 122)%nat) then ascii_of_nat (n - 32) else c.

Fixpoint map (f : ascii -> ascii) (s : string) : string :=
  match s with
  | EmptyString => EmptyString
  | String c s' => String (f c) (map f s')
  end.

(** [s.lower()] and [s.upper()] *)
Definition lower (s : string) : string := map lower_char s.
Definition upper (s : string) : string := map upper_char s.

(** [s.lstrip()] *)
Fixpoint lstrip (s : string) : string :=
  match s with
  | EmptyString => EmptyString
  | String c s' => if isspace c then lstrip s' else s
  end.

(** [s.rstrip()] *)
Fixpoint rstrip (s : string) : string :=
  match s with
  | EmptyString => EmptyString
  | String c s' =>
      match rstrip s' with
      | EmptyString => if isspace c then EmptyString else String c EmptyString
      | t => String c t
      end
  end.

(** [s.strip()] *)
Definition strip (s : string) : string := rstrip (lstrip s).

(** [not s]: the empty string is the only falsy one. *)
Definition is_empty (s : string) : bool :=
  match s with EmptyString => true | _ => false end.

(** [len(s)] *)
Definition len (s : string) : Z := Z.of_nat (String.length s).

(** [k in s]: [k] occurs in [s] as a contiguous substring. *)
Fixpoint contains (k s : string) : bool :=
  String.prefix k s ||
  match s with
  | EmptyString => false
  | String _ s' => contains k s'
  end.

(** every character is white space (true of the empty string) *)
Fixpoint all_space (s : string) : bool :=
  match s with
  | EmptyString => true
  | String c s' => isspace c && all_space s'
  end.

(** no character is white space *)
Fixpoint no_space (s : string) : bool :=
  match s with
  | EmptyString => true
  | String c s' => negb (isspace c) && no_space s'
  end.

End Str.

(** ** Parsed JSON, as [json.loads] returns it *)

#[warnings="-register-all"]
Inductive json : Type :=
| JNull                                   (* None *)
| JBool (b : bool)
| JInt (n : Z)
| JFloat (x : Q)
| JStr (s : string)
| JArr (l : list json)
| JObj (fields : list (string * json)).   (* dict, in key order *)

(** Python exceptions that can leave a handler *)
Inductive exn : Type :=
| AttributeError
| UnicodeDecodeError.

(** A computation that returns a value or raises. *)
Inductive result (A : Type) : Type :=
| Ok (a : A)
| Raise (e : exn).
Arguments Ok {A} a.
Arguments Raise {A} e.

Definition bind {A B : Type} (m : result A) (k : A -> result B) : result B :=
  match m with
  | Ok a => k a
  | Raise e => Raise e
  end.

Notation "x <- m ;; k" := (bind m (fun x => k))
  (at level 61, m at next level, right associativity).

Module Py.

(** Truth value of a parsed JSON value: [None], [False], zero, the empty
    string, list and dict are falsy. *)
Definition truthy (v : json) : bool :=
  match v with
  | JNull => false
  | JBool b => b
  | JInt n => negb (n =? 0)
  | JFloat x => negb (Qeq_bool x 0)
  | JStr s => negb (Str.is_empty s)
  | JArr l => match l with [] => false | _ => true end
  | JObj l => match l with [] => false | _ => true end
  end.

Fixpoint lookup (key : string) (fields : list (string * json)) : option json :=
  match fields with
  | [] => None
  | (k, v) :: rest => if String.eqb k key then Some v else lookup key rest
  end.

(** [data.get(key)]: only a dict has the method; a missing key gives [None]. *)
Definition get (data : json) (key : string) : result json :=
  match data with
  | JObj fields =>
      match lookup key fields with
      | Some v => Ok v
      | None => Ok JNull
      end
  | _ => Raise AttributeError
  end.

(** [v or ""] *)
Definition or_empty (v : json) : json :=
  if truthy v then v else JStr "".

(** [v.strip()], [v.lower()]: methods of [str] only. *)
Definition strip (v : json) : result string :=
  match v with
  | JStr s => Ok (Str.strip s)
  | _ => Raise AttributeError
  end.

Definition lower (v : json) : result string :=
  match v with
  | JStr s => Ok (Str.lower s)
  | _ => Raise AttributeError
  end.

End Py.

(** ** The triage cascade (lines 217-254 of [handle_symptom_checker]) *)

Record verdict : Type := Verdict {
  problem : string;
  severity : string;
  urgency : string;
  recommendation : string
}.

Definition v_default : verdict :=
  Verdict "General viral / mild condition" "mild" "normal"
    "Monitor at home, hydrate well & consult online if symptoms persist.".

Definition v_critical : verdict :=
  Verdict "Possible cardiac / neurological emergency" "critical" "emergency"
    "Immediate ambulance required. Do NOT drive yourself. Start CPR if not breathing.".

Definition v_breathing : verdict :=
  Verdict "Breathing difficulty / possible asthma or lung issue" "high" "urgent"
    "Use inhaler if prescribed & seek emergency department or ambulance if worsening.".

Definition v_bleeding : verdict :=
  Verdict "Significant bleeding" "high" "urgent"
    "Apply firm pressure, keep limb elevated & visit nearest emergency within 30 minutes.".

Definition v_fever : verdict :=
  Verdict "Fever / infection-like symptoms" "moderate" "normal"
    "Hydrate, use paracetamol as advised & book online doctor if more than 48h or very high fever.".

(** The [if]/[elif] chain, on the lower-cased text. *)
Definition classify (text : string) : verdict :=
  if existsb (fun k => Str.contains k text) ["chest"; "stroke"; "unconscious"]
  then v_critical
  else if Str.contains "breath" text
          || Str.contains "difficulty breathing" text
          || Str.contains "asthma" text
  then v_breathing
  else if Str.contains "bleeding" text || Str.contains "blood" text
  then v_bleeding
  else if Str.contains "fever" text || Str.contains "temperature" text
  then v_fever
  else v_default.

Module Triage.

(** The cascade as the specification words it: keyword sets in priority
    order, each with the severity and urgency it assigns. *)
Definition spec_rules : list (list string * (string * string)) :=
  [ (["chest"; "stroke"; "unconscious"], ("critical", "emergency"));
    (["breath"; "difficulty breathing"; "asthma"], ("high", "urgent"));
    (["bleeding"; "blood"], ("high", "urgent"));
    (["fever"; "temperature"], ("moderate", "normal")) ].

Definition spec_default : string * string := ("mild", "normal").

(** some keyword of the set occurs in the text *)
Definition matches (keywords : list string) (text : string) : bool :=
  existsb (fun k => Str.contains k text) keywords.

(** first match wins, in list order *)
Fixpoint first_match (rules : list (list string * (string * string)))
    (text : string) : string * string :=
  match rules with
  | [] => spec_default
  | (keywords, labels) :: rest =>
      if matches keywords text then labels else first_match rest text
  end.

Definition labels (v : verdict) : string * string := (severity v, urgency v).

End Triage.

(** ** The SQLite file *)

Module User.
Record t : Type := Row {
  id : Z;
  phone : string;          (* TEXT UNIQUE NOT NULL *)
  created_at : string      (* DEFAULT CURRENT_TIMESTAMP *)
}.
End User.

Module Doctor.
Record t : Type := Row {
  id : Z;
  name : string;
  speciality : string;
  rating : Q;
  distance_km : Q
}.
End Doctor.

Module Booking.
(** The four TEXT columns are nullable: [None] is NULL. *)
Record t : Type := Row {
  id : Z;
  user_phone : option string;
  pickup_location : option string;
  destination : option string;
  status : option string;
  created_at : string
}.
End Booking.

Module Bank.
Record t : Type := Row {
  id : Z;
  name : string;
  blood_group : string;
  units_available : Z;
  distance_km : Q
}.
End Bank.

(** Each table lists its rows in rowid order, which is insertion order; the
    [_seq] fields are the rows of [sqlite_sequence]. *)
Record store : Type := Store {
  users : list User.t;
  users_seq : Z;
  doctors : list Doctor.t;
  doctors_seq : Z;
  ambulance_bookings : list Booking.t;
  ambulance_bookings_seq : Z;
  blood_banks : list Bank.t;
  blood_banks_seq : Z
}.

(** The file right after the four [CREATE TABLE] statements ran on a new
    database. *)
Definition empty_store : store := Store [] 0 [] 0 [] 0 [] 0.

Module Sql.

Definition max_rowid (ids : list Z) : Z := fold_right Z.max 0 ids.

(** The rowid an AUTOINCREMENT table gives its next row: one more than the
    largest rowid the table has ever held. *)
Definition next_rowid (seq : Z) (ids : list Z) : Z :=
  1 + Z.max seq (max_rowid ids).

(** [ORDER BY key ASC]: rows with equal keys leave the sorter in the order
    the table scan fed them, that is in rowid order. *)
Fixpoint insert_by {A : Type} (key : A -> Q) (x : A) (l : list A) : list A :=
  match l with
  | [] => [x]
  | y :: l' =>
      if Qle_bool (key x) (key y) then x :: y :: l'
      else y :: insert_by key x l'
  end.

Definition order_by {A : Type} (key : A -> Q) (l : list A) : list A :=
  fold_right (insert_by key) [] l.

(** [INSERT OR IGNORE INTO users(phone) VALUES (?)].  The rowid is drawn
    before the UNIQUE constraint is checked, so the counter advances even
    when the row is dropped. *)
Definition insert_or_ignore_user (phone now : string) (s : store) : store :=
  let rowid := next_rowid (users_seq s) (List.map User.id (users s)) in
  let rows :=
    if existsb (fun u => String.eqb (User.phone u) phone) (users s)
    then users s
    else (users s ++ [User.Row rowid phone now])%list in
  Store rows rowid
        (doctors s) (doctors_seq s)
        (ambulance_bookings s) (ambulance_bookings_seq s)
        (blood_banks s) (blood_banks_seq s).

(** [SELECT id, phone, created_at FROM users WHERE phone = ?], [fetchone()] *)
Definition select_user (phone : string) (s : store) : option User.t :=
  find (fun u => String.eqb (User.phone u) phone) (users s).

(** [INSERT INTO doctors(name, speciality, rating, distance_km)] *)
Definition insert_doctor (d : string * string * Q * Q) (s : store) : store :=
  let '(name, speciality, rating, distance_km) := d in
  let rowid := next_rowid (doctors_seq s) (List.map Doctor.id (doctors s)) in
  Store (users s) (users_seq s)
        (doctors s ++ [Doctor.Row rowid name speciality rating distance_km])%list rowid
        (ambulance_bookings s) (ambulance_bookings_seq s)
        (blood_banks s) (blood_banks_seq s).

(** [INSERT INTO blood_banks(name, blood_group, units_available, distance_km)] *)
Definition insert_bank (b : string * string * Z * Q) (s : store) : store :=
  let '(name, blood_group, units, distance_km) := b in
  let rowid := next_rowid (blood_banks_seq s) (List.map Bank.id (blood_banks s)) in
  Store (users s) (users_seq s)
        (doctors s) (doctors_seq s)
        (ambulance_bookings s) (ambulance_bookings_seq s)
        (blood_banks s ++ [Bank.Row rowid name blood_group units distance_km])%list rowid.

(** [INSERT INTO ambulance_bookings(user_phone, pickup_location,
    destination, status)]; the result carries [cur.lastrowid]. *)
Definition insert_booking (user_phone pickup destination status : option string)
    (now : string) (s : store) : Z * store :=
  let rowid := next_rowid (ambulance_bookings_seq s)
                          (List.map Booking.id (ambulance_bookings s)) in
  (rowid,
   Store (users s) (users_seq s)
         (doctors s) (doctors_seq s)
         (ambulance_bookings s
            ++ [Booking.Row rowid user_phone pickup destination status now])%list
         rowid
         (blood_banks s) (blood_banks_seq s)).

(** [cur.executemany(stmt, rows)] *)
Definition executemany {A : Type} (stmt : A -> store -> store) (rows : list A)
    (s : store) : store :=
  fold_left (fun acc row => stmt row acc) rows s.

End Sql.

(** ** [init_db] *)

Definition seed_doctors : list (string * string * Q * Q) :=
  [ ("Dr. Aditi Rao", "emergency", (49 # 10)%Q, (12 # 10)%Q);
    ("Dr. Karan Mehta", "cardio", (48 # 10)%Q, (21 # 10)%Q);
    ("Dr. Sana Ali", "pediatrics", (47 # 10)%Q, (9 # 10)%Q) ].

Definition seed_blood_rows : list (string * string * Z * Q) :=
  [ ("City Blood Center", "A+", 6, (21 # 10)%Q);
    ("City Blood Center", "O+", 4, (21 # 10)%Q);
    ("Metro Blood Bank", "A+", 3, (34 # 10)%Q);
    ("Metro Blood Bank", "O+", 2, (34 # 10)%Q);
    ("Govt. Blood Bank", "A+", 0, (41 # 10)%Q) ].

(** The [CREATE TABLE IF NOT EXISTS] statements leave existing tables as
    they are; each seed list is inserted when its table counts zero rows. *)
Definition init_db (s : store) : store :=
  let s1 :=
    if (Z.of_nat (List.length (doctors s)) =? 0)
    then Sql.executemany Sql.insert_doctor seed_doctors s
    else s in
  if (Z.of_nat (List.length (blood_banks s1)) =? 0)
  then Sql.executemany Sql.insert_bank seed_blood_rows s1
  else s1.

(** ** Requests and responses *)

(** [int(length_str)] *)
Inductive int_parse : Type :=
| NotInt                 (* raises ValueError *)
| IntLit (n : Z).

(** What [self.rfile.read(length).decode("utf-8")] and [json.loads] make of
    the bytes of the body. *)
Inductive payload : Type :=
| NotUtf8                (* decode raises UnicodeDecodeError *)
| NotJson                (* json.loads raises JSONDecodeError *)
| Json (v : json).

Record request : Type := Request {
  command : string;                    (* self.command *)
  path : string;                       (* urlparse(self.path).path *)
  content_length : option int_parse;   (* the Content-Length header, if any *)
  body : payload;
  now : string                         (* CURRENT_TIMESTAMP while it is served *)
}.

Inductive content : Type :=
| JsonBody (data : json)
| NoBody
| ErrorPage.             (* the HTML page of send_error *)

Record response : Type := Response {
  status : Z;
  sent : content
}.

(** A request is answered, or an exception leaves the handler and the
    connection is closed without an answer. *)
Inductive reply : Type :=
| Sent (r : response)
| Escaped (e : exn).

Definition send_json (data : json) (status : Z) : reply :=
  Sent (Response status (JsonBody data)).

Definition read_json_body (r : request) : result json :=
  let length :=
    match content_length r with
    | None => 0                        (* the default "0" *)
    | Some NotInt => 0                 (* except ValueError *)
    | Some (IntLit n) => n
    end in
  if length =? 0 then Ok (JObj [])
  else
    match body r with
    | NotUtf8 => Raise UnicodeDecodeError
    | NotJson => Ok (JObj [])          (* except json.JSONDecodeError *)
    | Json v => Ok v
    end.

(** [(data.get(key) or "").strip()] *)
Definition stripped (data : json) (key : string) : result string :=
  v <- Py.get data key ;; Py.strip (Py.or_empty v).

(** ** Handlers *)

Definition user_dict (u : User.t) : json :=
  JObj [("id", JInt (User.id u));
        ("phone", JStr (User.phone u));
        ("created_at", JStr (User.created_at u))].

Definition handle_login (r : request) (s : store) : reply * store :=
  match (data <- read_json_body r ;;
         phone <- stripped data "phone" ;;
         otp <- stripped data "otp" ;;
         Ok (phone, otp)) with
  | Raise e => (Escaped e, s)
  | Ok (phone, otp) =>
      if Str.is_empty phone || Str.is_empty otp then
        (send_json (JObj [("error", JStr "phone and otp required")]) 400, s)
      else if negb (Str.len otp =? 6) then
        (send_json (JObj [("error", JStr "invalid otp, must be 6 digits")]) 400, s)
      else
        let s' := Sql.insert_or_ignore_user phone (now r) s in
        match Sql.select_user phone s' with
        | None =>
            (send_json (JObj [("error", JStr "could not create user")]) 500, s')
        | Some row =>
            (send_json (JObj [("status", JStr "ok"); ("user", user_dict row)]) 200,
             s')
        end
  end.

Definition verdict_dict (v : verdict) : json :=
  JObj [("possible_problem", JStr (problem v));
        ("severity", JStr (severity v));
        ("urgency", JStr (urgency v));
        ("recommendation", JStr (recommendation v))].

Definition handle_symptom_checker (r : request) (s : store) : reply * store :=
  match (data <- read_json_body r ;;
         v <- Py.get data "description" ;;
         Py.lower (Py.or_empty v)) with
  | Raise e => (Escaped e, s)
  | Ok text =>
      if Str.is_empty (Str.strip text) then
        (send_json
           (JObj [("error", JStr "description required");
                  ("message", JStr "please describe at least one symptom")])
           400,
         s)
      else (send_json (verdict_dict (classify text)) 200, s)
  end.

Definition doctor_dict (d : Doctor.t) : json :=
  JObj [("id", JInt (Doctor.id d));
        ("name", JStr (Doctor.name d));
        ("speciality", JStr (Doctor.speciality d));
        ("rating", JFloat (Doctor.rating d));
        ("distance_km", JFloat (Doctor.distance_km d))].

(** [SELECT ... FROM doctors ORDER BY distance_km ASC], [fetchall()] *)
Definition select_doctors (s : store) : list Doctor.t :=
  Sql.order_by Doctor.distance_km (doctors s).

Definition handle_doctors (r : request) (s : store) : reply * store :=
  let rows := select_doctors s in
  (send_json (JObj [("doctors", JArr (List.map doctor_dict rows))]) 200, s).

Definition handle_ambulance_book (r : request) (s : store) : reply * store :=
  match (data <- read_json_body r ;;
         phone <- stripped data "phone" ;;
         pickup <- stripped data "pickup_location" ;;
         dest <- stripped data "destination" ;;
         Ok (phone, pickup, dest)) with
  | Raise e => (Escaped e, s)
  | Ok (phone, pickup, dest) =>
      if Str.is_empty pickup then
        (send_json (JObj [("error", JStr "pickup_location required")]) 400, s)
      else
        let '(booking_id, s') :=
          Sql.insert_booking (Some phone) (Some pickup) (Some dest)
                             (Some "BOOKED") (now r) s in
        (send_json
           (JObj [("status", JStr "ok");
                  ("booking_id", JInt booking_id);
                  ("eta_minutes", JInt 5);
                  ("message",
                   JStr "Ambulance booked, driver will contact you shortly.")])
           200,
         s')
  end.

Definition bank_dict (b : Bank.t) : json :=
  JObj [("name", JStr (Bank.name b));
        ("units_available", JInt (Bank.units_available b));
        ("distance_km", JFloat (Bank.distance_km b))].

(** [SELECT name, units_available, distance_km FROM blood_banks
     WHERE blood_group = ? ORDER BY distance_km ASC], [fetchall()] *)
Definition select_banks (group : string) (s : store) : list Bank.t :=
  Sql.order_by Bank.distance_km
    (filter (fun b => String.eqb (Bank.blood_group b) group) (blood_banks s)).

Definition handle_blood_check (r : request) (s : store) : reply * store :=
  match (data <- read_json_body r ;;
         g <- stripped data "blood_group" ;;
         Ok (Str.upper g)) with
  | Raise e => (Escaped e, s)
  | Ok group =>
      if Str.is_empty group then
        (send_json (JObj [("error", JStr "blood_group required")]) 400, s)
      else
        let rows := select_banks group s in
        (send_json
           (JObj [("blood_group", JStr group);
                  ("banks", JArr (List.map bank_dict rows))])
           200,
         s)
  end.

(** ** Routing *)

Definition not_found : reply :=
  send_json (JObj [("error", JStr "Not found")]) 404.

Definition do_OPTIONS (r : request) (s : store) : reply * store :=
  (Sent (Response 200 NoBody), s).

Definition do_POST (r : request) (s : store) : reply * store :=
  if String.eqb (path r) "/api/login" then handle_login r s
  else if String.eqb (path r) "/api/symptom-checker" then handle_symptom_checker r s
  else if String.eqb (path r) "/api/ambulance/book" then handle_ambulance_book r s
  else if String.eqb (path r) "/api/blood/check" then handle_blood_check r s
  else (not_found, s).

Definition do_GET (r : request) (s : store) : reply * store :=
  if String.eqb (path r) "/api/doctors" then handle_doctors r s
  else (not_found, s).

(** The dispatch of [BaseHTTPRequestHandler]: the method [do_<command>] of
    the handler class is called, and a command without one is answered 501. *)
Definition handle_one_request (r : request) (s : store) : reply * store :=
  if String.eqb (command r) "OPTIONS" then do_OPTIONS r s
  else if String.eqb (command r) "POST" then do_POST r s
  else if String.eqb (command r) "GET" then do_GET r s
  else (Sent (Response 501 ErrorPage), s).

(** [serve_forever] on a list of requests, one after the other. *)
Fixpoint serve (rs : list request) (s : store) : list reply * store :=
  match rs with
  | [] => ([], s)
  | r :: rest =>
      let '(a, s1) := handle_one_request r s in
      let '(out, s2) := serve rest s1 in
      (a :: out, s2)
  end.

(** [run_server]: initialise the database, then serve. *)
Definition run_server (rs : list request) (s : store) : list reply * store :=
  serve rs (init_db s).

(** ** Vocabulary of the statements *)

(** What a request carries under a key of its JSON object: nothing (the key
    is not there, or is null), or a text.  Any other request has no
    reading: its body is not an object, or the value is of another type. *)
Inductive reading : Type :=
| Missing
| Text (d : string).

Definition field (r : request) (key : string) : option reading :=
  match read_json_body r with
  | Ok data =>
      match Py.get data key with
      | Ok JNull => Some Missing
      | Ok (JStr d) => Some (Text d)
      | _ => None
      end
  | Raise _ => None
  end.

Definition text (x : reading) : string :=
  match x with
  | Missing => ""
  | Text d => d
  end.

(** missing, empty, or white space only *)
Definition blank (x : reading) : bool := Str.is_empty (Str.strip (text x)).

(** The same request with the two bytes [{}] as its body. *)
Definition with_empty_object (r : request) : request :=
  Request (command r) (path r) (Some (IntLit 2)) (Json (JObj [])) (now r).


(** The dispatch table of the specification. *)
Definition routes : list (string * string) :=
  [ ("POST", "/api/login");
    ("POST", "/api/symptom-checker");
    ("POST", "/api/ambulance/book");
    ("POST", "/api/blood/check");
    ("GET", "/api/doctors") ].

(** The field [key] is missing from the parsed body [data]: absent, falsy,
    or white space only. *)
Definition missing (data : json) (key : string) : Prop :=
  stripped data key = Ok "".


(** The 200 answer of the booking handler. *)
Definition booked (booking_id : Z) : reply :=
  send_json
    (JObj [("status", JStr "ok");
           ("booking_id", JInt booking_id);
           ("eta_minutes", JInt 5);
           ("message", JStr "Ambulance booked, driver will contact you shortly.")])
    200.

(** The 200 answer of the login handler. *)
Definition logged_in (u : User.t) : reply :=
  send_json (JObj [("status", JStr "ok"); ("user", user_dict u)]) 200.

(** The columns [init_db] gives a doctor and a blood-bank row. *)
Definition doctor_columns (d : Doctor.t) : string * string * Q * Q :=
  (Doctor.name d, Doctor.speciality d, Doctor.rating d, Doctor.distance_km d).

Definition bank_columns (b : Bank.t) : string * string * Z * Q :=
  (Bank.name b, Bank.blood_group b, Bank.units_available b, Bank.distance_km b).

(** the doctor practises at distance [x] *)
Definition at_distance (x : Q) (d : Doctor.t) : bool :=
  Qeq_bool (Doctor.distance_km d) x.

(** nearer or as near *)
Definition nearer (a b : Doctor.t) : Prop :=
  (Doctor.distance_km a <= Doctor.distance_km b)%Q.

(** Two texts that differ at most in the case of their letters. *)
Definition same_letters (a b : string) : Prop := Str.lower a = Str.lower b.

(** Requests as a client sends them, for the examples. *)
Definition symptom_request (body : payload) : request :=
  Request "POST" "/api/symptom-checker" (Some (IntLit 32)) body
          "2024-01-01 00:00:00".

Definition login_at (phone otp t : string) : request :=
  Request "POST" "/api/login" (Some (IntLit 40))
          (Json (JObj [("phone", JStr phone); ("otp", JStr otp)])) t.

Definition login_request (phone otp : string) : request :=
  login_at phone otp "2024-01-01 00:00:00".

Definition booking_request (fields : list (string * json)) : request :=
  Request "POST" "/api/ambulance/book" (Some (IntLit 64)) (Json (JObj fields))
          "2024-01-01 10:00:00".

Definition blood_request (group : string) : request :=
  Request "POST" "/api/blood/check" (Some (IntLit 21))
          (Json (JObj [("blood_group", JStr group)])) "2024-01-01 10:00:00".

(** The cascade in its priority order, each keyword set with the verdict
    that its branch of the chain assigns. *)
Definition rule_verdicts : list (list string * verdict) :=
  [ (["chest"; "stroke"; "unconscious"], v_critical);
    (["breath"; "difficulty breathing"; "asthma"], v_breathing);
    (["bleeding"; "blood"], v_bleeding);
    (["fever"; "temperature"], v_fever) ].

(** first match wins, in list order; the default verdict when none does *)
Fixpoint first_verdict (rules : list (list string * verdict)) (text : string)
    : verdict :=
  match rules with
  | [] => v_default
  | (keywords, v) :: rest =>
      if Triage.matches keywords text then v else first_verdict rest text
  end.

(** ** Vocabulary of the further properties *)

(** The severity labels in their order: mild, moderate, high, critical. *)
Definition severity_rank (v : verdict) : nat :=
  if String.eqb (severity v) "critical" then 3
  else if String.eqb (severity v) "high" then 2
  else if String.eqb (severity v) "moderate" then 1
  else 0.

(** A text that is not empty and that [strip] leaves as it is. *)
Definition trimmed (t : string) : Prop := t <> "" /\ Str.strip t = t.

(** The users table as the handlers keep it: one row per phone, rowids
    ascending and within the counter, phones trimmed. *)
Definition users_ok (s : store) : Prop :=
  NoDup (List.map User.phone (users s)) /\
  StronglySorted Z.lt (List.map User.id (users s)) /\
  Forall (fun u => 0 < User.id u <= users_seq s /\ trimmed (User.phone u))
         (users s).

(** A bookings row as the handler writes it. *)
Definition booking_ok (b : Booking.t) : Prop :=
  Booking.status b = Some "BOOKED" /\
  (exists pickup, Booking.pickup_location b = Some pickup /\ trimmed pickup) /\
  Booking.user_phone b <> None /\
  Booking.destination b <> None.

(** The bookings table as the handler keeps it: rowids ascending and
    within the counter, every row as the handler writes it. *)
Definition bookings_ok (s : store) : Prop :=
  StronglySorted Z.lt (List.map Booking.id (ambulance_bookings s)) /\
  Forall (fun b => 0 < Booking.id b <= ambulance_bookings_seq s /\ booking_ok b)
         (ambulance_bookings s).

(** The keys a handler reads from the body, by path. *)
Definition fields_read (p : string) : list string :=
  if String.eqb p "/api/login" then ["phone"; "otp"]
  else if String.eqb p "/api/symptom-checker" then ["description"]
  else if String.eqb p "/api/ambulance/book"
       then ["phone"; "pickup_location"; "destination"]
  else if String.eqb p "/api/blood/check" then ["blood_group"]
  else [].

(** The value under [key] is one the handlers can work on: the body is an
    object and the value is falsy or a text. *)
Definition readable (data : json) (key : string) : bool :=
  match Py.get data key with
  | Ok v => match Py.or_empty v with JStr _ => true | _ => false end
  | Raise _ => false
  end.

(** * Properties *)

(** ** Strings *)

Module StrFacts.
Import Str.

Lemma isspace_lower_char c : isspace (lower_char c) = isspace c.
Proof. destruct c as [[] [] [] [] [] [] [] []]; reflexivity. Qed.

Lemma isspace_upper_char c : isspace (upper_char c) = isspace c.
Proof. destruct c as [[] [] [] [] [] [] [] []]; reflexivity. Qed.

Lemma upper_lower_char c : upper_char (lower_char c) = upper_char c.
Proof. destruct c as [[] [] [] [] [] [] [] []]; reflexivity. Qed.

Lemma is_empty_true s : is_empty s = true <-> s = "".
Proof. destruct s; simpl; split; congruence. Qed.

Lemma lstrip_empty s : lstrip s = "" <-> all_space s = true.
Proof.
  induction s as [|c s IH]; simpl.
  - split; reflexivity.
  - destruct (isspace c); simpl; [exact IH | split; discriminate].
Qed.

Lemma rstrip_empty s : rstrip s = "" <-> all_space s = true.
Proof.
  induction s as [|c s IH]; simpl.
  - split; reflexivity.
  - destruct (rstrip s) eqn:E.
    + destruct (isspace c); simpl.
      * split; intros _; [apply IH|]; reflexivity.
      * split; discriminate.
    + split; [discriminate|].
      intros H. apply andb_true_iff in H as [_ H].
      apply IH in H. discriminate.
Qed.

Lemma all_space_lstrip s : all_space (lstrip s) = all_space s.
Proof.
  induction s as [|c s IH]; simpl; [reflexivity|].
  destruct (isspace c) eqn:E; simpl; [exact IH | now rewrite E].
Qed.

(** [s.strip()] is empty exactly when [s] is white space only. *)
Lemma strip_empty s : strip s = "" <-> all_space s = true.
Proof. unfold strip. rewrite rstrip_empty, all_space_lstrip. reflexivity. Qed.

Lemma is_empty_strip s : is_empty (strip s) = all_space s.
Proof.
  destruct (all_space s) eqn:E.
  - apply strip_empty in E. now rewrite E.
  - destruct (is_empty (strip s)) eqn:F; [|reflexivity].
    apply is_empty_true, strip_empty in F. congruence.
Qed.

Section Charwise.
Variable f : ascii -> ascii.
Hypothesis f_space : forall c, isspace (f c) = isspace c.

Lemma all_space_map s : all_space (map f s) = all_space s.
Proof. induction s as [|c s IH]; simpl; [|rewrite f_space, IH]; reflexivity. Qed.

Lemma lstrip_map s : lstrip (map f s) = map f (lstrip s).
Proof.
  induction s as [|c s IH]; simpl; [reflexivity|].
  rewrite f_space. destruct (isspace c); [exact IH | reflexivity].
Qed.

Lemma rstrip_map s : rstrip (map f s) = map f (rstrip s).
Proof.
  induction s as [|c s IH]; simpl; [reflexivity|].
  rewrite IH, f_space.
  destruct (rstrip s); simpl; [destruct (isspace c)|]; reflexivity.
Qed.

Lemma strip_map s : strip (map f s) = map f (strip s).
Proof. unfold strip. now rewrite lstrip_map, rstrip_map. Qed.
End Charwise.

Lemma map_map f g s : map f (map g s) = map (fun c => f (g c)) s.
Proof. induction s as [|c s IH]; simpl; [|rewrite IH]; reflexivity. Qed.

Lemma map_ext f g s : (forall c, f c = g c) -> map f s = map g s.
Proof. intros H. induction s as [|c s IH]; simpl; [|rewrite H, IH]; reflexivity. Qed.

Lemma upper_lower s : upper (lower s) = upper s.
Proof. unfold upper, lower. rewrite map_map. apply map_ext, upper_lower_char. Qed.

Lemma strip_lower s : strip (lower s) = lower (strip s).
Proof. apply strip_map, isspace_lower_char. Qed.

Lemma strip_upper s : strip (upper s) = upper (strip s).
Proof. apply strip_map, isspace_upper_char. Qed.


Lemma all_space_lower s : all_space (lower s) = all_space s.
Proof. apply all_space_map, isspace_lower_char. Qed.

Lemma lstrip_app_space w s : all_space w = true -> lstrip (w ++ s) = lstrip s.
Proof.
  induction w as [|c w IH]; simpl; [reflexivity|].
  intros H. apply andb_true_iff in H as [Hc Hw]. now rewrite Hc, IH.
Qed.

Lemma lstrip_no_space s : no_space s = true -> lstrip s = s.
Proof.
  destruct s as [|c s]; simpl; [reflexivity|].
  intros H. apply andb_true_iff in H as [Hc _].
  apply negb_true_iff in Hc. now rewrite Hc.
Qed.

Lemma rstrip_app_space s w :
  no_space s = true -> all_space w = true -> rstrip (s ++ w) = s.
Proof.
  intros Hs Hw. induction s as [|c s IH]; simpl.
  - now apply rstrip_empty.
  - simpl in Hs. apply andb_true_iff in Hs as [Hc Hs].
    apply negb_true_iff in Hc. rewrite (IH Hs), Hc.
    destruct s; reflexivity.
Qed.

Lemma lstrip_app_no_space s w :
  no_space s = true -> s <> "" -> lstrip (s ++ w) = s ++ w.
Proof.
  destruct s as [|c s]; [congruence|]. simpl.
  intros H _. apply andb_true_iff in H as [Hc _].
  apply negb_true_iff in Hc. now rewrite Hc.
Qed.

(** White space around a text without white space is what [strip] removes. *)
Lemma strip_padded w1 s w2 :
  all_space w1 = true -> no_space s = true -> all_space w2 = true ->
  strip (w1 ++ s ++ w2) = s.
Proof.
  intros H1 Hs H2. unfold strip. rewrite lstrip_app_space by assumption.
  destruct s as [|c s].
  - simpl. apply rstrip_empty. now rewrite all_space_lstrip.
  - rewrite lstrip_app_no_space by (assumption || discriminate).
    now apply rstrip_app_space.
Qed.

End StrFacts.

(** ** The triage cascade *)

Module TriageFacts.
Import Triage.

(** The [if]/[elif] chain computes the first match of the rule list. *)
Lemma classify_first_match text :
  labels (classify text) = first_match spec_rules text.
Proof.
  unfold classify, spec_rules, first_match, matches. cbn [existsb].
  destruct (Str.contains "chest" text), (Str.contains "stroke" text),
    (Str.contains "unconscious" text); try reflexivity.
  destruct (Str.contains "breath" text),
    (Str.contains "difficulty breathing" text),
    (Str.contains "asthma" text); try reflexivity.
  destruct (Str.contains "bleeding" text), (Str.contains "blood" text);
    try reflexivity.
  destruct (Str.contains "fever" text), (Str.contains "temperature" text);
    reflexivity.
Qed.

Lemma first_match_skip before keywords lab after text :
  (forall r, In r before -> matches (fst r) text = false) ->
  matches keywords text = true ->
  first_match (before ++ (keywords, lab) :: after) text = lab.
Proof.
  induction before as [|[ks l] before IH]; cbn [app first_match]; intros Hb Hm.
  - now rewrite Hm.
  - pose proof (Hb (ks, l) (or_introl eq_refl)) as E. cbn [fst] in E. rewrite E.
    apply IH; [|assumption]. intros r Hr. apply Hb. now right.
Qed.

Lemma first_match_none rules text :
  (forall r, In r rules -> matches (fst r) text = false) ->
  first_match rules text = spec_default.
Proof.
  induction rules as [|[ks l] rules IH]; cbn [first_match]; intros Hb;
    [reflexivity|].
  pose proof (Hb (ks, l) (or_introl eq_refl)) as E. cbn [fst] in E. rewrite E.
  apply IH. intros r Hr. apply Hb. now right.
Qed.

(** The [if]/[elif] chain returns the verdict of the first rule that
    matches. *)
Lemma classify_first_verdict text :
  classify text = first_verdict rule_verdicts text.
Proof.
  unfold classify, rule_verdicts, first_verdict, matches. cbn [existsb].
  destruct (Str.contains "chest" text), (Str.contains "stroke" text),
    (Str.contains "unconscious" text); try reflexivity.
  destruct (Str.contains "breath" text),
    (Str.contains "difficulty breathing" text),
    (Str.contains "asthma" text); try reflexivity.
  destruct (Str.contains "bleeding" text), (Str.contains "blood" text);
    try reflexivity.
  destruct (Str.contains "fever" text), (Str.contains "temperature" text);
    reflexivity.
Qed.

Lemma first_verdict_skip before keywords v after text :
  (forall r, In r before -> matches (fst r) text = false) ->
  matches keywords text = true ->
  first_verdict (before ++ (keywords, v) :: after) text = v.
Proof.
  induction before as [|[ks w] before IH]; cbn [app first_verdict];
    intros Hb Hm.
  - now rewrite Hm.
  - pose proof (Hb (ks, w) (or_introl eq_refl)) as E. cbn [fst] in E. rewrite E.
    apply IH; [|assumption]. intros r Hr. apply Hb. now right.
Qed.

(** C1: on the lower-cased text of every description the cascade returns
    the verdict of the first rule that matches, in the fixed order
    (1) chest/stroke/unconscious, (2) breath/difficulty breathing/asthma,
    (3) bleeding/blood, (4) fever/temperature, and the default verdict when
    none matches; the rules carry the severity and urgency critical/emergency,
    high/urgent, high/urgent, moderate/normal, and the default mild/normal.
    So when a rule matches and no rule before it in the priority order does,
    the verdict is that rule's verdict, problem and recommendation included,
    whichever later rules match too. *)
Theorem classify_highest_priority_wins (description : string) :
  classify (Str.lower description)
  = first_verdict rule_verdicts (Str.lower description) /\
  List.map (fun r => (fst r, labels (snd r))) rule_verdicts = spec_rules /\
  labels v_default = spec_default /\
  (forall before keywords v after,
     rule_verdicts = (before ++ (keywords, v) :: after)%list ->
     matches keywords (Str.lower description) = true ->
     (forall r, In r before ->
                matches (fst r) (Str.lower description) = false) ->
     classify (Str.lower description) = v) /\
  labels (classify (Str.lower description))
  = first_match spec_rules (Str.lower description) /\
  forall before keywords sev urg after,
    spec_rules = (before ++ (keywords, (sev, urg)) :: after)%list ->
    matches keywords (Str.lower description) = true ->
    (forall r, In r before -> matches (fst r) (Str.lower description) = false) ->
    severity (classify (Str.lower description)) = sev /\
    urgency (classify (Str.lower description)) = urg.
Proof.
  split; [apply classify_first_verdict|].
  split; [reflexivity|]. split; [reflexivity|]. split.
  { intros before keywords v after Hrules Hm Hb.
    rewrite classify_first_verdict, Hrules.
    now apply first_verdict_skip. }
  split; [apply classify_first_match|].
  intros before keywords sev urg after Hrules Hm Hb.
  pose proof (classify_first_match (Str.lower description)) as H.
  rewrite Hrules, first_match_skip in H by assumption.
  unfold labels in H. now inversion H.
Qed.

(** "chest pain and fever" matches rules 1 and 4 and gets the verdict of
    rule 1; "Bleeding and short of breath" matches rules 2 and 3 and gets
    the verdict of rule 2. *)
Lemma classify_highest_priority_wins_witness :
  (matches ["fever"; "temperature"] (Str.lower "chest pain and fever") = true /\
   classify (Str.lower "chest pain and fever") = v_critical /\
   severity (classify (Str.lower "chest pain and fever")) = "critical" /\
   urgency (classify (Str.lower "chest pain and fever")) = "emergency") /\
  (matches ["bleeding"; "blood"] (Str.lower "Bleeding and short of breath")
   = true /\
   classify (Str.lower "Bleeding and short of breath") = v_breathing).
Proof.
  split; (split; [reflexivity|]).
  - split.
    + apply (proj1 (proj2 (proj2 (proj2
               (classify_highest_priority_wins "chest pain and fever"))))
               [] ["chest"; "stroke"; "unconscious"] v_critical
               (tl rule_verdicts)).
      * reflexivity.
      * reflexivity.
      * intros r [].
    + apply (proj2 (proj2 (proj2 (proj2 (proj2
               (classify_highest_priority_wins "chest pain and fever")))))
               [] ["chest"; "stroke"; "unconscious"] "critical" "emergency"
               (tl spec_rules)).
      * reflexivity.
      * reflexivity.
      * intros r [].
  - apply (proj1 (proj2 (proj2 (proj2
             (classify_highest_priority_wins "Bleeding and short of breath"))))
             [(["chest"; "stroke"; "unconscious"], v_critical)]
             ["breath"; "difficulty breathing"; "asthma"] v_breathing
             (tl (tl rule_verdicts))).
    + reflexivity.
    + reflexivity.
    + intros r [<-|[]]. reflexivity.
Defined.

(** Rule 5: with no keyword in the text the verdict is the default one. *)
Lemma classify_default text :
  (forall r, In r spec_rules -> matches (fst r) text = false) ->
  classify text = v_default.
Proof.
  intros H. unfold classify.
  pose proof (H _ (or_introl eq_refl)) as H1.
  pose proof (H _ (or_intror (or_introl eq_refl))) as H2.
  pose proof (H _ (or_intror (or_intror (or_introl eq_refl)))) as H3.
  pose proof (H _ (or_intror (or_intror (or_intror (or_introl eq_refl))))) as H4.
  unfold matches in *. cbn [existsb fst] in *.
  rewrite H1.
  repeat (apply orb_false_iff in H2 as [? H2]).
  repeat (apply orb_false_iff in H3 as [? H3]).
  repeat (apply orb_false_iff in H4 as [? H4]).
  repeat match goal with E : Str.contains _ text = false |- _ => rewrite E; clear E end.
  reflexivity.
Qed.

Example classify_fever :
  classify (Str.lower "I have a fever") = v_fever.
Proof. reflexivity. Qed.

Example classify_random :
  classify (Str.lower "random text xyz") = v_default.
Proof. reflexivity. Qed.

(** Keyword presence only: "no bleeding" is rule 3. *)
Example classify_no_bleeding :
  classify (Str.lower "No bleeding") = v_bleeding.
Proof. reflexivity. Qed.

End TriageFacts.

(** ** Reading the request *)

Module RequestFacts.
Import StrFacts.

Lemma bind_ok (A B : Type) (a : A) (k : A -> result B) : bind (Ok a) k = k a.
Proof. reflexivity. Qed.



Lemma read_json_body_empty_object r :
  read_json_body (with_empty_object r) = Ok (JObj []).
Proof. reflexivity. Qed.


(** The text a handler works on, for a request that has a reading. *)
Lemma field_stripped r key x :
  field r key = Some x ->
  exists data,
    read_json_body r = Ok data /\
    stripped data key = Ok (Str.strip (text x)) /\
    (v <- Py.get data key ;; Py.lower (Py.or_empty v))
      = Ok (Str.lower (text x)).
Proof.
  unfold field, stripped. intros H.
  destruct (read_json_body r) as [data|]; [|discriminate].
  exists data. split; [reflexivity|].
  destruct (Py.get data key) as [[| | | |d| |]|]; try discriminate;
    injection H as <-; simpl.
  - split; reflexivity.
  - unfold Py.or_empty. simpl. destruct d; split; reflexivity.
Qed.


Lemma blank_lower d :
  Str.is_empty (Str.strip (Str.lower d)) = Str.is_empty (Str.strip d).
Proof. now rewrite !is_empty_strip, all_space_lower. Qed.

End RequestFacts.

(** ** The symptom checker *)

Module SymptomFacts.
Import StrFacts RequestFacts.

(** C2: a symptom-checker request whose description is missing, empty or
    white space only is answered 400 with the error body; one whose
    description is not empty once trimmed is answered 200 with the verdict
    of the cascade on the lower-cased description.  The store is not
    touched. *)
Theorem symptom_checker_requires_description r s x :
  field r "description" = Some x ->
  handle_symptom_checker r s =
    (if blank x
     then send_json
            (JObj [("error", JStr "description required");
                   ("message", JStr "please describe at least one symptom")])
            400
     else send_json (verdict_dict (classify (Str.lower (text x)))) 200,
     s).
Proof.
  intros H. destruct (field_stripped _ _ H) as (data & Hd & _ & Hl).
  unfold handle_symptom_checker, blank.
  rewrite Hd, bind_ok, Hl, blank_lower.
  now destruct (Str.is_empty (Str.strip (text x))).
Qed.

Lemma symptom_checker_requires_description_witness :
  (exists resp,
     handle_symptom_checker
       (symptom_request (Json (JObj [("description", JStr "   ")])))
       empty_store = (Sent resp, empty_store) /\ status resp = 400) /\
  handle_symptom_checker
    (symptom_request (Json (JObj [("description", JStr "I have a Fever")])))
    empty_store = (send_json (verdict_dict v_fever) 200, empty_store).
Proof.
  split.
  - eexists. split.
    + apply (@symptom_checker_requires_description _ _ (Text "   ")).
      reflexivity.
    + reflexivity.
  - apply (@symptom_checker_requires_description _ _ (Text "I have a Fever")).
    reflexivity.
Defined.

(** A request without a body has no description. *)
Example symptom_checker_no_body :
  field (Request "POST" "/api/symptom-checker" None NotJson "") "description"
  = Some Missing /\
  handle_symptom_checker
    (Request "POST" "/api/symptom-checker" None NotJson "") empty_store
  = (send_json
       (JObj [("error", JStr "description required");
              ("message", JStr "please describe at least one symptom")])
       400,
     empty_store).
Proof. split; reflexivity. Qed.

(** A description that is not a text is not validated: the exception
    leaves the handler. *)
Example symptom_checker_number :
  handle_symptom_checker
    (symptom_request (Json (JObj [("description", JInt 7)]))) empty_store
  = (Escaped AttributeError, empty_store).
Proof. reflexivity. Qed.

End SymptomFacts.

(** ** Bodies that cannot be read, and the 400 answers *)

Module BodyFacts.
Import StrFacts RequestFacts.









(** A body that is not UTF-8 is not caught: [UnicodeDecodeError] is not a
    [JSONDecodeError], and leaves the handler. *)
Example not_utf8_escapes :
  handle_one_request
    (Request "POST" "/api/login" (Some (IntLit 1)) NotUtf8 "") empty_store
  = (Escaped UnicodeDecodeError, empty_store).
Proof. reflexivity. Qed.

(** A body that parses to something else than an object is not caught
    either. *)
Example json_array_escapes :
  handle_one_request
    (Request "POST" "/api/login" (Some (IntLit 2)) (Json (JArr [])) "")
    empty_store
  = (Escaped AttributeError, empty_store).
Proof. reflexivity. Qed.

End BodyFacts.

(** ** Routing *)

Module RoutingFacts.

Lemma not_in_routes_post p :
  ~ In ("POST", p) routes ->
  String.eqb p "/api/login" = false /\
  String.eqb p "/api/symptom-checker" = false /\
  String.eqb p "/api/ambulance/book" = false /\
  String.eqb p "/api/blood/check" = false.
Proof.
  intros H. repeat split; apply String.eqb_neq; intros ->; apply H; simpl; tauto.
Qed.

Lemma not_in_routes_get p :
  ~ In ("GET", p) routes -> String.eqb p "/api/doctors" = false.
Proof.
  intros H. apply String.eqb_neq. intros ->. apply H. simpl. tauto.
Qed.

(** C6, as the code has it: a GET or POST request whose method and path
    are not one of the five routes is answered 404 with the JSON body
    {"error": "Not found"}, and the store is left as it is. *)
Theorem unknown_route_is_404 r s :
  command r = "GET" \/ command r = "POST" ->
  ~ In (command r, path r) routes ->
  handle_one_request r s
  = (send_json (JObj [("error", JStr "Not found")]) 404, s).
Proof.
  unfold handle_one_request. intros [Hc|Hc] H; rewrite Hc in *; cbn [String.eqb Ascii.eqb Bool.eqb andb].
  - unfold do_GET. now rewrite (not_in_routes_get H).
  - unfold do_POST.
    destruct (not_in_routes_post H) as (-> & -> & -> & ->). reflexivity.
Qed.

Lemma unknown_route_is_404_witness :
  handle_one_request (Request "GET" "/api/unknown" None NotJson "") empty_store
  = (send_json (JObj [("error", JStr "Not found")]) 404, empty_store).
Proof.
  apply unknown_route_is_404.
  - left. reflexivity.
  - simpl. intros [H|[H|[H|[H|[H|[]]]]]]; discriminate H.
Defined.

(** The claim as stated fails: OPTIONS on an unknown path is the CORS
    preflight, answered 200 without a body. *)
Lemma options_unknown_path_is_200 :
  ~ In ("OPTIONS", "/api/unknown") routes /\
  handle_one_request (Request "OPTIONS" "/api/unknown" None NotJson "")
                     empty_store
  = (Sent (Response 200 NoBody), empty_store).
Proof.
  split; [|reflexivity].
  simpl. intros [H|[H|[H|[H|[H|[]]]]]]; discriminate H.
Qed.

(** The five routes are served by their handlers. *)
Lemma routes_are_served r s :
  In (command r, path r) routes ->
  handle_one_request r s =
    if String.eqb (path r) "/api/login" then handle_login r s
    else if String.eqb (path r) "/api/symptom-checker"
         then handle_symptom_checker r s
    else if String.eqb (path r) "/api/ambulance/book"
         then handle_ambulance_book r s
    else if String.eqb (path r) "/api/blood/check" then handle_blood_check r s
    else handle_doctors r s.
Proof.
  unfold handle_one_request, do_POST, do_GET. simpl.
  intros [H|[H|[H|[H|[H|[]]]]]]; injection H as <- <-; reflexivity.
Qed.

(** A command other than GET, POST and OPTIONS has no method in the
    handler class. *)
Example put_is_501 :
  handle_one_request (Request "PUT" "/api/login" None NotJson "") empty_store
  = (Sent (Response 501 ErrorPage), empty_store).
Proof. reflexivity. Qed.

End RoutingFacts.

(** ** Login *)

Module LoginFacts.
Import StrFacts RequestFacts.

Section Find.
Variables (A : Type) (f : A -> bool).

Lemma find_app_miss l x :
  existsb f l = false -> find f (l ++ [x]) = if f x then Some x else None.
Proof.
  induction l as [|y l IH]; simpl; [reflexivity|].
  destruct (f y); simpl; [discriminate | exact IH].
Qed.

Lemma find_hit l :
  existsb f l = true -> exists y, find f l = Some y /\ In y l /\ f y = true.
Proof.
  induction l as [|y l IH]; simpl; [discriminate|].
  destruct (f y) eqn:E; simpl.
  - intros _. exists y. auto.
  - intros H. destruct (IH H) as (z & ? & ? & ?). exists z. auto.
Qed.
End Find.

(** After [INSERT OR IGNORE] the [SELECT] finds a row with that phone: the
    one that was there, or the one just inserted. *)
Lemma select_after_insert phone t s :
  exists u,
    Sql.select_user phone (Sql.insert_or_ignore_user phone t s) = Some u /\
    User.phone u = phone /\
    In u (users (Sql.insert_or_ignore_user phone t s)) /\
    existsb (fun v => String.eqb (User.phone v) phone)
            (users (Sql.insert_or_ignore_user phone t s)) = true /\
    (users (Sql.insert_or_ignore_user phone t s) = users s \/
     exists id,
       users (Sql.insert_or_ignore_user phone t s)
       = (users s ++ [User.Row id phone t])%list).
Proof.
  unfold Sql.select_user, Sql.insert_or_ignore_user. cbn [users].
  destruct (existsb _ (users s)) eqn:E.
  - destruct (find_hit _ _ E) as (u & Hf & Hin & Hu).
    apply String.eqb_eq in Hu. exists u. auto 6.
  - set (row := User.Row _ phone t).
    exists row. rewrite find_app_miss by assumption.
    cbn [User.phone row]. rewrite String.eqb_refl.
    repeat split.
    + apply in_or_app. right. now left.
    + rewrite existsb_app. cbn. rewrite String.eqb_refl.
      now rewrite orb_true_r.
    + right. eexists. reflexivity.
Qed.

(** An [INSERT OR IGNORE] of a phone that is in the table changes no row,
    and the [SELECT] answers as before. *)
Lemma insert_known_phone phone t s :
  existsb (fun v => String.eqb (User.phone v) phone) (users s) = true ->
  users (Sql.insert_or_ignore_user phone t s) = users s /\
  Sql.select_user phone (Sql.insert_or_ignore_user phone t s)
  = Sql.select_user phone s.
Proof.
  intros E. unfold Sql.select_user, Sql.insert_or_ignore_user. cbn [users].
  now rewrite E.
Qed.

(** The handler on a request with readings for both fields. *)
Lemma handle_login_readings r s p o :
  field r "phone" = Some p -> field r "otp" = Some o ->
  handle_login r s =
    let phone := Str.strip (text p) in
    let otp := Str.strip (text o) in
    if Str.is_empty phone || Str.is_empty otp then
      (send_json (JObj [("error", JStr "phone and otp required")]) 400, s)
    else if negb (Str.len otp =? 6) then
      (send_json (JObj [("error", JStr "invalid otp, must be 6 digits")]) 400, s)
    else
      let s' := Sql.insert_or_ignore_user phone (now r) s in
      match Sql.select_user phone s' with
      | None =>
          (send_json (JObj [("error", JStr "could not create user")]) 500, s')
      | Some row => (logged_in row, s')
      end.
Proof.
  intros Hp Ho.
  destruct (field_stripped _ _ Hp) as (data & Hd & Hsp & _).
  destruct (field_stripped _ _ Ho) as (data' & Hd' & Hso & _).
  rewrite Hd in Hd'. injection Hd' as <-.
  unfold handle_login. now rewrite Hd, bind_ok, Hsp, bind_ok, Hso, bind_ok.
Qed.

Lemma not_empty s : s <> "" -> Str.is_empty s = false.
Proof. destruct s; [congruence | reflexivity]. Qed.

Lemma login_accepts r s p o :
  field r "phone" = Some p -> field r "otp" = Some o ->
  Str.strip (text p) <> "" -> Str.len (Str.strip (text o)) = 6 ->
  handle_login r s =
    let s' := Sql.insert_or_ignore_user (Str.strip (text p)) (now r) s in
    match Sql.select_user (Str.strip (text p)) s' with
    | None =>
        (send_json (JObj [("error", JStr "could not create user")]) 500, s')
    | Some row => (logged_in row, s')
    end.
Proof.
  intros Hp Ho Hne Hlen. rewrite (@handle_login_readings r s p o Hp Ho). cbv zeta.
  rewrite (not_empty Hne), Hlen.
  destruct (Str.strip (text o)); [discriminate Hlen | reflexivity].
Qed.

(** C4: two logins in a row with the same phone, each with an otp of 6
    characters, are both answered 200 with the same user record, so with
    the same id; the second login inserts nothing, and the users table has
    as many rows after it as before. *)
Theorem login_twice_same_user r1 r2 s p o1 o2 :
  field r1 "phone" = Some (Text p) -> field r1 "otp" = Some (Text o1) ->
  field r2 "phone" = Some (Text p) -> field r2 "otp" = Some (Text o2) ->
  Str.strip p <> "" ->
  Str.len (Str.strip o1) = 6 -> Str.len (Str.strip o2) = 6 ->
  exists u s1 s2,
    handle_login r1 s = (logged_in u, s1) /\
    handle_login r2 s1 = (logged_in u, s2) /\
    users s2 = users s1 /\
    List.length (users s2) = List.length (users s1).
Proof.
  intros Hp1 Ho1 Hp2 Ho2 Hne H1 H2.
  destruct (select_after_insert (Str.strip p) (now r1) s)
    as (u & Hsel & _ & _ & Hex & _).
  destruct (insert_known_phone (Str.strip p) (now r2) _ Hex) as (Hsame & Hsel2).
  exists u, (Sql.insert_or_ignore_user (Str.strip p) (now r1) s),
    (Sql.insert_or_ignore_user (Str.strip p) (now r2)
       (Sql.insert_or_ignore_user (Str.strip p) (now r1) s)).
  split; [|split; [|split]].
  - rewrite (@login_accepts r1 s (Text p) (Text o1) Hp1 Ho1) by assumption.
    cbv zeta. cbn [text]. now rewrite Hsel.
  - rewrite (@login_accepts r2 _ (Text p) (Text o2) Hp2 Ho2) by assumption.
    cbv zeta. cbn [text]. now rewrite Hsel2, Hsel.
  - exact Hsame.
  - now rewrite Hsame.
Qed.

Lemma login_twice_same_user_witness :
  exists u s1 s2,
    handle_login (login_at "9876543210" "123456" "2024-01-01 10:00:00")
                 (init_db empty_store) = (logged_in u, s1) /\
    handle_login (login_at "9876543210" "abcdef" "2024-01-02 11:30:00") s1
    = (logged_in u, s2) /\
    users s2 = users s1 /\
    List.length (users s2) = List.length (users s1).
Proof.
  apply (@login_twice_same_user _ _ _ "9876543210" "123456" "abcdef");
    solve [reflexivity | discriminate].
Defined.

(** C9: the login handler strips both fields before it validates them.  A
    phone or an otp that is missing or white space only is answered 400 as
    a missing field.  With a phone that is not blank, an otp made of 6
    characters that are not white space, with white space before and
    after, is accepted: the answer is the user record whose phone is the
    stripped phone, that record is in the users table, and a row that was
    inserted holds the stripped phone. *)
Theorem login_strips_fields r s p o :
  field r "phone" = Some p -> field r "otp" = Some o ->
  (blank p = true \/ blank o = true ->
   handle_login r s
   = (send_json (JObj [("error", JStr "phone and otp required")]) 400, s)) /\
  (blank p = false ->
   forall w1 core w2,
     text o = w1 ++ core ++ w2 ->
     Str.all_space w1 = true -> Str.all_space w2 = true ->
     Str.no_space core = true -> String.length core = 6%nat ->
     exists u s',
       handle_login r s = (logged_in u, s') /\
       User.phone u = Str.strip (text p) /\
       In u (users s') /\
       (users s' = users s \/
        exists id,
          users s'
          = (users s ++ [User.Row id (Str.strip (text p)) (now r)])%list)).
Proof.
  intros Hp Ho. split.
  - intros H. rewrite (@handle_login_readings r s p o Hp Ho). cbv zeta.
    unfold blank in H.
    destruct H as [-> | ->]; [|rewrite orb_true_r]; reflexivity.
  - intros Hb w1 core w2 Ht H1 H2 Hc Hlen.
    assert (Hstrip : Str.strip (text o) = core)
      by (rewrite Ht; now apply strip_padded).
    assert (Hne : Str.strip (text p) <> "").
    { intros E. unfold blank in Hb. rewrite E in Hb. discriminate. }
    rewrite (@login_accepts r s p o Hp Ho Hne)
      by (rewrite Hstrip; unfold Str.len; now rewrite Hlen).
    cbv zeta.
    destruct (select_after_insert (Str.strip (text p)) (now r) s)
      as (u & -> & Hu & Hin & _ & Hrows).
    exists u. eexists. repeat split; assumption.
Qed.

Lemma login_strips_fields_witness :
  let r := login_at "  9876543210 " "  12ab56 " "2024-01-01 10:00:00" in
  handle_login (login_at "   " "123456" "") empty_store
  = (send_json (JObj [("error", JStr "phone and otp required")]) 400,
     empty_store) /\
  exists u s',
    handle_login r empty_store = (logged_in u, s') /\
    User.phone u = "9876543210" /\
    In u (users s') /\
    (users s' = [] \/
     exists id, users s' = [User.Row id "9876543210" "2024-01-01 10:00:00"]).
Proof.
  cbv zeta. split.
  - apply (proj1 (@login_strips_fields (login_at "   " "123456" "") empty_store
                    (Text "   ") (Text "123456") eq_refl eq_refl)).
    left. reflexivity.
  - apply (proj2 (@login_strips_fields
                    (login_at "  9876543210 " "  12ab56 " "2024-01-01 10:00:00")
                    empty_store (Text "  9876543210 ") (Text "  12ab56 ")
                    eq_refl eq_refl)
             eq_refl "  " "12ab56" " "); reflexivity.
Defined.

(** The length is taken after the strip: six characters of which one is a
    trailing space are turned down. *)
Example otp_five_and_space :
  fst (handle_login (login_at "9876543210" "12345 " "") empty_store)
  = send_json (JObj [("error", JStr "invalid otp, must be 6 digits")]) 400.
Proof. reflexivity. Qed.

(** A phone given as a JSON number is not validated: [int] has no
    [strip]. *)
Example login_numeric_phone :
  handle_login
    (Request "POST" "/api/login" (Some (IntLit 40))
       (Json (JObj [("phone", JInt 9876543210); ("otp", JStr "123456")])) "")
    empty_store
  = (Escaped AttributeError, empty_store).
Proof. reflexivity. Qed.

End LoginFacts.

(** ** Ambulance booking *)

Module BookingFacts.
Import StrFacts RequestFacts.

(** The handler on a request with readings for its three fields. *)
Lemma handle_ambulance_book_readings r s p q d :
  field r "phone" = Some p -> field r "pickup_location" = Some q ->
  field r "destination" = Some d ->
  handle_ambulance_book r s =
    if blank q then
      (send_json (JObj [("error", JStr "pickup_location required")]) 400, s)
    else
      let '(booking_id, s') :=
        Sql.insert_booking (Some (Str.strip (text p))) (Some (Str.strip (text q)))
                           (Some (Str.strip (text d))) (Some "BOOKED")
                           (now r) s in
      (booked booking_id, s').
Proof.
  intros Hp Hq Hd.
  destruct (field_stripped _ _ Hp) as (data & Hdata & Hsp & _).
  destruct (field_stripped _ _ Hq) as (data1 & Hdata1 & Hsq & _).
  destruct (field_stripped _ _ Hd) as (data2 & Hdata2 & Hsd & _).
  rewrite Hdata in Hdata1, Hdata2.
  injection Hdata1 as <-. injection Hdata2 as <-.
  unfold handle_ambulance_book, blank.
  now rewrite Hdata, bind_ok, Hsp, bind_ok, Hsq, bind_ok, Hsd, bind_ok.
Qed.

Lemma next_rowid_above seq ids : seq < Sql.next_rowid seq ids.
Proof. unfold Sql.next_rowid. lia. Qed.

Lemma insert_booking_id ph pk d st t s id s' :
  Sql.insert_booking ph pk d st t s = (id, s') ->
  ambulance_bookings_seq s < id /\ ambulance_bookings_seq s' = id.
Proof.
  unfold Sql.insert_booking. intros H.
  apply (f_equal fst) in H as Hid. apply (f_equal snd) in H as Hs.
  cbn [fst snd] in Hid, Hs. subst id s'.
  split; [apply next_rowid_above | reflexivity].
Qed.

(** A booking draws an id above the counter and leaves the counter at it. *)
Lemma booked_id r s id s' :
  handle_ambulance_book r s = (booked id, s') ->
  ambulance_bookings_seq s < id /\ ambulance_bookings_seq s' = id.
Proof.
  unfold handle_ambulance_book.
  destruct (_ <- read_json_body r ;; _) as [[[phone pickup] dest]|];
    [|discriminate].
  destruct (Str.is_empty pickup); [discriminate|].
  destruct (Sql.insert_booking _ _ _ _ _ s) as [i s''] eqn:E.
  unfold booked, send_json. intros H.
  assert (i = id) by congruence. assert (s'' = s') by congruence. subst.
  now apply insert_booking_id in E.
Qed.

(** No handler lowers the counter of the bookings table. *)
Lemma seq_handle_ambulance_book r s :
  ambulance_bookings_seq s
  <= ambulance_bookings_seq (snd (handle_ambulance_book r s)).
Proof.
  unfold handle_ambulance_book.
  destruct (_ <- read_json_body r ;; _) as [[[phone pickup] dest]|];
    [|cbn; lia].
  destruct (Str.is_empty pickup); [cbn; lia|].
  destruct (Sql.insert_booking _ _ _ _ _ s) as [i s''] eqn:E.
  apply insert_booking_id in E. cbn [snd]. lia.
Qed.

Lemma seq_handle_login r s :
  ambulance_bookings_seq (snd (handle_login r s)) = ambulance_bookings_seq s.
Proof.
  unfold handle_login.
  destruct (_ <- read_json_body r ;; _) as [[phone otp]|]; [|reflexivity].
  destruct (_ || _); [reflexivity|].
  destruct (negb _); [reflexivity|].
  cbv zeta. destruct (Sql.select_user _ _); reflexivity.
Qed.

Lemma seq_handle_symptom_checker r s :
  snd (handle_symptom_checker r s) = s.
Proof.
  unfold handle_symptom_checker.
  destruct (_ <- read_json_body r ;; _) as [t|]; [|reflexivity].
  destruct (Str.is_empty _); reflexivity.
Qed.

Lemma seq_handle_blood_check r s :
  snd (handle_blood_check r s) = s.
Proof.
  unfold handle_blood_check.
  destruct (_ <- read_json_body r ;; _) as [t|]; [|reflexivity].
  destruct (Str.is_empty _); reflexivity.
Qed.

Lemma seq_handle_one_request r s :
  ambulance_bookings_seq s
  <= ambulance_bookings_seq (snd (handle_one_request r s)).
Proof.
  unfold handle_one_request, do_OPTIONS, do_POST, do_GET, handle_doctors.
  repeat match goal with
         | |- context [if ?b then _ else _] => destruct b
         end;
    rewrite ?seq_handle_login, ?seq_handle_symptom_checker,
      ?seq_handle_blood_check;
    try (cbn; lia).
  apply seq_handle_ambulance_book.
Qed.

Lemma seq_serve rs : forall s,
  ambulance_bookings_seq s <= ambulance_bookings_seq (snd (serve rs s)).
Proof.
  induction rs as [|r rs IH]; intros s; cbn [serve]; [cbn; lia|].
  pose proof (seq_handle_one_request r s) as H1.
  destruct (handle_one_request r s) as [a s1]. cbn [snd] in H1.
  pose proof (IH s1) as H2.
  destruct (serve rs s1) as [out s2]. cbn [snd] in *. lia.
Qed.

(** C5: on a request with readings for its three fields, a pickup location
    that is missing, empty or white space only is answered 400 and the
    store, so the bookings table, stays as it is; any other pickup
    location is answered 200 with eta_minutes 5 and a booking id that is
    greater than the id of every booking answered before, whatever
    requests were served in between. *)
Theorem ambulance_book_contract r s p q d :
  field r "phone" = Some p -> field r "pickup_location" = Some q ->
  field r "destination" = Some d ->
  (blank q = true ->
   handle_ambulance_book r s
   = (send_json (JObj [("error", JStr "pickup_location required")]) 400, s)) /\
  (blank q = false ->
   exists id s',
     handle_ambulance_book r s
     = (send_json
          (JObj [("status", JStr "ok");
                 ("booking_id", JInt id);
                 ("eta_minutes", JInt 5);
                 ("message",
                  JStr "Ambulance booked, driver will contact you shortly.")])
          200,
        s') /\
     forall r0 s0 id0 s1 between,
       handle_ambulance_book r0 s0 = (booked id0, s1) ->
       snd (serve between s1) = s ->
       id0 < id).
Proof.
  intros Hp Hq Hd.
  rewrite (@handle_ambulance_book_readings r s p q d Hp Hq Hd).
  split; intros Hb; rewrite Hb; [reflexivity|].
  destruct (Sql.insert_booking _ _ _ _ _ s) as [id s'] eqn:E.
  exists id, s'. split; [reflexivity|].
  intros r0 s0 id0 s1 between H0 Hs.
  apply booked_id in H0 as [_ H0].
  pose proof (seq_serve between s1) as Hmono. rewrite Hs, H0 in Hmono.
  apply insert_booking_id in E. lia.
Qed.

Lemma ambulance_book_contract_witness :
  handle_ambulance_book (booking_request [("pickup_location", JStr "  ")])
                        empty_store
  = (send_json (JObj [("error", JStr "pickup_location required")]) 400,
     empty_store) /\
  exists id s',
    handle_ambulance_book
      (booking_request [("phone", JStr "98765");
                        ("pickup_location", JStr "MG Road")])
      (snd (handle_ambulance_book
              (booking_request [("pickup_location", JStr "Station")])
              empty_store))
    = (booked id, s') /\ 1 < id.
Proof.
  split.
  - apply (proj1 (@ambulance_book_contract
                    (booking_request [("pickup_location", JStr "  ")])
                    empty_store Missing (Text "  ") Missing
                    eq_refl eq_refl eq_refl)).
    reflexivity.
  - destruct (proj2 (@ambulance_book_contract
                       (booking_request [("phone", JStr "98765");
                                         ("pickup_location", JStr "MG Road")])
                       (snd (handle_ambulance_book
                               (booking_request
                                  [("pickup_location", JStr "Station")])
                               empty_store))
                       (Text "98765") (Text "MG Road") Missing
                       eq_refl eq_refl eq_refl) eq_refl)
      as (id & s' & H & Hlt).
    exists id, s'. split; [exact H|].
    apply (Hlt (booking_request [("pickup_location", JStr "Station")])
               empty_store 1
               (snd (handle_ambulance_book
                       (booking_request [("pickup_location", JStr "Station")])
                       empty_store))
               []); reflexivity.
Defined.

(** C10: the booking handler leaves the bookings table as it is or appends
    rows to it, and every row it appends has status "BOOKED" and a text,
    not NULL, as user_phone and as destination; the text is empty when the
    request leaves the field out. *)
Theorem booking_rows_are_booked r s :
  exists rows,
    ambulance_bookings (snd (handle_ambulance_book r s))
    = (ambulance_bookings s ++ rows)%list /\
    forall row, In row rows ->
      Booking.status row = Some "BOOKED" /\
      exists phone dest,
        Booking.user_phone row = Some phone /\
        Booking.destination row = Some dest /\
        (field r "phone" = Some Missing -> phone = "") /\
        (field r "destination" = Some Missing -> dest = "").
Proof.
  unfold handle_ambulance_book.
  destruct (read_json_body r) as [data|] eqn:Hdata;
    [rewrite bind_ok | exists []; cbn; now rewrite app_nil_r].
  destruct (stripped data "phone") as [phone|] eqn:Hphone;
    [rewrite bind_ok | exists []; cbn; now rewrite app_nil_r].
  destruct (stripped data "pickup_location") as [pickup|];
    [rewrite bind_ok | exists []; cbn; now rewrite app_nil_r].
  destruct (stripped data "destination") as [dest|] eqn:Hdest;
    [rewrite bind_ok | exists []; cbn; now rewrite app_nil_r].
  destruct (Str.is_empty pickup);
    [exists []; cbn; now rewrite app_nil_r|].
  unfold Sql.insert_booking. cbn [snd ambulance_bookings].
  eexists. split; [reflexivity|].
  intros row [<-|[]]. cbn. split; [reflexivity|].
  exists phone, dest. repeat split.
  - intros H. destruct (field_stripped _ _ H) as (data' & Hd' & Hs & _).
    rewrite Hdata in Hd'. injection Hd' as <-.
    rewrite Hphone in Hs. now injection Hs.
  - intros H. destruct (field_stripped _ _ H) as (data' & Hd' & Hs & _).
    rewrite Hdata in Hd'. injection Hd' as <-.
    rewrite Hdest in Hs. now injection Hs.
Qed.

Lemma booking_rows_are_booked_witness :
  exists row,
    ambulance_bookings
      (snd (handle_ambulance_book
              (booking_request [("pickup_location", JStr " Station ")])
              empty_store)) = [row] /\
    Booking.status row = Some "BOOKED" /\
    Booking.user_phone row = Some "" /\
    Booking.destination row = Some "".
Proof.
  destruct (booking_rows_are_booked
              (booking_request [("pickup_location", JStr " Station ")])
              empty_store) as (rows & Hrows & Hall).
  cbn [ambulance_bookings empty_store app] in Hrows.
  exists (Booking.Row 1 (Some "") (Some "Station") (Some "") (Some "BOOKED")
                      "2024-01-01 10:00:00").
  split; [reflexivity|].
  destruct (Hall (Booking.Row 1 (Some "") (Some "Station") (Some "")
                              (Some "BOOKED") "2024-01-01 10:00:00"))
    as (Hst & phone & dest & Hp & Hd & Hpe & Hde).
  - rewrite <- Hrows. left. reflexivity.
  - rewrite Hp, Hd, (Hpe eq_refl), (Hde eq_refl). auto.
Defined.

(** A booking with the pickup location only. *)
Example booking_pickup_only :
  ambulance_bookings
    (snd (handle_ambulance_book
            (booking_request [("pickup_location", JStr " Station ")])
            empty_store))
  = [Booking.Row 1 (Some "") (Some "Station") (Some "") (Some "BOOKED")
                 "2024-01-01 10:00:00"].
Proof. reflexivity. Qed.

(** A phone given as a JSON number is not validated: the exception leaves
    the handler before the pickup location is looked at. *)
Example booking_numeric_phone :
  handle_ambulance_book (booking_request [("phone", JInt 98765)]) empty_store
  = (Escaped AttributeError, empty_store).
Proof. reflexivity. Qed.

End BookingFacts.

(** ** ORDER BY *)

Module SortFacts.

Section OrderBy.
Variable A : Type.
Variable key : A -> Q.

Let le (a b : A) : Prop := (key a <= key b)%Q.
Let same (x : Q) (a : A) : bool := Qeq_bool (key a) x.

Lemma insert_by_perm x l : Permutation (Sql.insert_by key x l) (x :: l).
Proof.
  induction l as [|y l IH]; simpl; [apply Permutation_refl|].
  destruct (Qle_bool (key x) (key y)); [apply Permutation_refl|].
  rewrite IH. apply perm_swap.
Qed.

(** all rows, each once *)
Lemma order_by_perm l : Permutation (Sql.order_by key l) l.
Proof.
  induction l as [|x l IH]; simpl; [constructor|].
  rewrite insert_by_perm. now constructor.
Qed.

Lemma insert_by_hd x y l :
  le y x -> HdRel le y l -> HdRel le y (Sql.insert_by key x l).
Proof.
  intros Hyx Hl. destruct l as [|z l]; simpl; [now constructor|].
  destruct (Qle_bool (key x) (key z)); constructor;
    [assumption | now apply HdRel_inv in Hl].
Qed.

Lemma insert_by_sorted x l :
  Sorted le l -> Sorted le (Sql.insert_by key x l).
Proof.
  induction l as [|y l IH]; simpl; intros Hs.
  - repeat constructor.
  - apply Sorted_inv in Hs as [Hs Hhd].
    destruct (Qle_bool (key x) (key y)) eqn:E.
    + apply Qle_bool_iff in E. repeat constructor; assumption.
    + constructor; [now apply IH|].
      apply insert_by_hd; [|assumption].
      unfold le. apply Qlt_le_weak, Qnot_le_lt.
      intros H. apply Qle_bool_iff in H. congruence.
Qed.

Lemma order_by_sorted l : Sorted le (Sql.order_by key l).
Proof.
  induction l as [|x l IH]; simpl; [constructor | now apply insert_by_sorted].
Qed.

(** ascending in the key *)
Lemma order_by_strongly_sorted l : StronglySorted le (Sql.order_by key l).
Proof.
  apply Sorted_StronglySorted; [|apply order_by_sorted].
  intros a b c. unfold le. apply Qle_trans.
Qed.

(** A row goes in before the first row whose key is not smaller, so
    after none of the rows that share its key. *)
Lemma insert_by_filter v x l :
  filter (same v) (Sql.insert_by key x l)
  = if same v x then x :: filter (same v) l else filter (same v) l.
Proof.
  induction l as [|y l IH]; simpl; [reflexivity|].
  destruct (Qle_bool (key x) (key y)) eqn:E; simpl; [reflexivity|].
  rewrite IH. destruct (same v x) eqn:Ex; [|reflexivity].
  destruct (same v y) eqn:Ey; [|reflexivity].
  exfalso. unfold same in Ex, Ey.
  apply Qeq_bool_iff in Ex, Ey.
  assert (H : Qle_bool (key x) (key y) = true)
    by (apply Qle_bool_iff; rewrite Ex, Ey; apply Qle_refl).
  congruence.
Qed.

(** rows with equal keys keep the order of the table *)
Lemma order_by_stable v l :
  filter (same v) (Sql.order_by key l) = filter (same v) l.
Proof.
  induction l as [|x l IH]; simpl; [reflexivity|].
  rewrite insert_by_filter, IH. reflexivity.
Qed.

Lemma order_by_nil l : l = [] -> Sql.order_by key l = [].
Proof. now intros ->. Qed.

(** With no two rows on one key the order is fixed by the keys: two
    ascending lists of the same rows are the same list. *)
Lemma ascending_unique l1 : forall l2,
  Permutation l1 l2 ->
  (forall a b, In a l1 -> In b l1 -> (key a == key b)%Q -> a = b) ->
  StronglySorted le l1 -> StronglySorted le l2 -> l1 = l2.
Proof.
  induction l1 as [|a l1 IH]; intros l2 HP Hinj S1 S2.
  - apply Permutation_nil in HP. now subst.
  - destruct l2 as [|b l2];
      [apply Permutation_sym, Permutation_nil in HP; discriminate|].
    apply StronglySorted_inv in S1 as [S1 F1].
    apply StronglySorted_inv in S2 as [S2 F2].
    rewrite Forall_forall in F1, F2.
    assert (Hab : a = b).
    { assert (Ha : In a (b :: l2))
        by (eapply Permutation_in; [exact HP | now left]).
      assert (Hb : In b (a :: l1))
        by (eapply Permutation_in;
            [apply Permutation_sym; exact HP | now left]).
      destruct Ha as [Ha|Ha]; [now subst|].
      destruct Hb as [Hb|Hb]; [now subst|].
      apply Hinj; [now left | now right |].
      apply Qle_antisym; [apply (F1 b Hb) | apply (F2 a Ha)]. }
    subst b. f_equal. apply IH; try assumption.
    + eapply Permutation_cons_inv. exact HP.
    + intros x y Hx Hy. apply Hinj; now right.
Qed.
End OrderBy.

End SortFacts.

(** ** The doctor directory *)

Module DoctorFacts.
Import SortFacts BookingFacts.

(** Serving a request changes neither the doctors nor the blood banks. *)
Lemma handle_one_request_reference_tables r s :
  doctors (snd (handle_one_request r s)) = doctors s /\
  blood_banks (snd (handle_one_request r s)) = blood_banks s.
Proof.
  unfold handle_one_request, do_OPTIONS, do_POST, do_GET, handle_doctors.
  repeat match goal with
         | |- context [if ?b then _ else _] => destruct b
         end;
    rewrite ?seq_handle_symptom_checker, ?seq_handle_blood_check;
    try (split; reflexivity).
  - unfold handle_login.
    destruct (_ <- read_json_body r ;; _) as [[phone otp]|];
      [|split; reflexivity].
    destruct (_ || _); [split; reflexivity|].
    destruct (negb _); [split; reflexivity|].
    cbv zeta. destruct (Sql.select_user _ _); split; reflexivity.
  - unfold handle_ambulance_book.
    destruct (_ <- read_json_body r ;; _) as [[[phone pickup] dest]|];
      [|split; reflexivity].
    destruct (Str.is_empty pickup); split; reflexivity.
Qed.

Lemma serve_reference_tables rs : forall s,
  doctors (snd (serve rs s)) = doctors s /\
  blood_banks (snd (serve rs s)) = blood_banks s.
Proof.
  induction rs as [|r rs IH]; intros s; cbn [serve]; [split; reflexivity|].
  pose proof (handle_one_request_reference_tables r s) as H1.
  destruct (handle_one_request r s) as [a s1]. cbn [snd] in H1.
  pose proof (IH s1) as H2.
  destruct (serve rs s1) as [out s2]. cbn [snd] in *.
  destruct H1 as [<- <-]. exact H2.
Qed.

Lemma length_zero (A : Type) (l : list A) :
  (Z.of_nat (List.length l) =? 0) = match l with [] => true | _ => false end.
Proof. destruct l; reflexivity. Qed.

Lemma doctors_insert_banks rows : forall s,
  doctors (Sql.executemany Sql.insert_bank rows s) = doctors s.
Proof.
  unfold Sql.executemany.
  induction rows as [|[[[n g] u] d] rows IH]; intros s; cbn [fold_left];
    [reflexivity | now rewrite IH].
Qed.

Lemma blood_banks_insert_doctors rows : forall s,
  blood_banks (Sql.executemany Sql.insert_doctor rows s) = blood_banks s.
Proof.
  unfold Sql.executemany.
  induction rows as [|[[[n g] u] d] rows IH]; intros s; cbn [fold_left];
    [reflexivity | now rewrite IH].
Qed.

(** The doctors after [init_db]: the table as it was, or the seed rows
    when it was empty. *)
Lemma doctors_init_db s :
  doctors (init_db s)
  = match doctors s with
    | [] => doctors (Sql.executemany Sql.insert_doctor seed_doctors s)
    | _ => doctors s
    end.
Proof.
  unfold init_db. cbv zeta. rewrite !length_zero.
  destruct (doctors s) eqn:E;
    match goal with
    | |- context [blood_banks ?x] => destruct (blood_banks x)
    end; rewrite ?doctors_insert_banks, ?E; reflexivity.
Qed.

Lemma blood_banks_init_db s :
  blood_banks s <> [] -> blood_banks (init_db s) = blood_banks s.
Proof.
  intros H. unfold init_db. cbv zeta. rewrite !length_zero.
  destruct (doctors s) eqn:E; rewrite ?blood_banks_insert_doctors;
    destruct (blood_banks s) eqn:F; rewrite ?blood_banks_insert_doctors, ?F;
    congruence.
Qed.

Lemma seeded_banks s :
  blood_banks s = [] ->
  List.map bank_columns
           (blood_banks (Sql.executemany Sql.insert_bank seed_blood_rows s))
  = seed_blood_rows.
Proof.
  intros E. unfold Sql.executemany, seed_blood_rows.
  cbn [fold_left Sql.insert_bank blood_banks]. rewrite E. reflexivity.
Qed.

(** The blood banks of an empty table after [init_db]: the seed rows. *)
Lemma blood_banks_init_db_empty s :
  blood_banks s = [] ->
  List.map bank_columns (blood_banks (init_db s)) = seed_blood_rows.
Proof.
  intros H. unfold init_db. cbv zeta. rewrite !length_zero.
  destruct (doctors s) eqn:E; rewrite ?blood_banks_insert_doctors, H;
    apply seeded_banks; now rewrite ?blood_banks_insert_doctors.
Qed.

Lemma seeded_doctors s :
  doctors s = [] ->
  List.map doctor_columns
           (doctors (Sql.executemany Sql.insert_doctor seed_doctors s))
  = seed_doctors.
Proof.
  intros E. unfold Sql.executemany, seed_doctors.
  cbn [fold_left Sql.insert_doctor doctors]. rewrite E. reflexivity.
Qed.

Lemma init_db_not_empty s :
  doctors (init_db s) <> [] /\ blood_banks (init_db s) <> [].
Proof.
  split.
  - rewrite doctors_init_db.
    destruct (doctors s) eqn:E; [|discriminate].
    intros H. pose proof (seeded_doctors _ E) as Hs. rewrite H in Hs.
    discriminate Hs.
  - destruct (blood_banks s) eqn:E.
    + intros H. pose proof (blood_banks_init_db_empty _ E) as Hs.
      rewrite H in Hs. discriminate Hs.
    + rewrite blood_banks_init_db; congruence.
Qed.

Lemma init_db_seeded s :
  doctors s <> [] -> blood_banks s <> [] -> init_db s = s.
Proof.
  intros Hd Hb. unfold init_db. cbv zeta. rewrite !length_zero.
  destruct (doctors s); [congruence|].
  destruct (blood_banks s); [congruence|]. reflexivity.
Qed.

(** Running the initialisation again changes nothing. *)
Lemma init_db_idempotent s : init_db (init_db s) = init_db s.
Proof. apply init_db_seeded; apply init_db_not_empty. Qed.

(** C7: the doctors listing answers 200 with all rows of the doctors
    table, in ascending order of distance_km, rows at the same distance in
    the order of the table, that is of insertion; it leaves the store as it
    is, and the listing is the same after any requests were served and
    after the initialisation is run again, which adds no row: the table
    holds the three seed rows once when it was empty before the first
    initialisation, and the rows it had otherwise. *)
Theorem doctors_listing r s :
  handle_doctors r s
  = (send_json
       (JObj [("doctors", JArr (List.map doctor_dict (select_doctors s)))]) 200,
     s) /\
  Permutation (select_doctors s) (doctors s) /\
  StronglySorted nearer (select_doctors s) /\
  (forall x,
     filter (at_distance x) (select_doctors s)
     = filter (at_distance x) (doctors s)) /\
  (forall rs, select_doctors (snd (serve rs s)) = select_doctors s) /\
  (forall rs,
     select_doctors (init_db (snd (serve rs (init_db s))))
     = select_doctors (init_db s)) /\
  init_db (init_db s) = init_db s /\
  List.map doctor_columns (doctors (init_db (init_db s)))
  = match doctors s with
    | [] => seed_doctors
    | _ => List.map doctor_columns (doctors s)
    end.
Proof.
  unfold select_doctors. repeat split.
  - apply order_by_perm.
  - apply order_by_strongly_sorted.
  - intros x. apply order_by_stable.
  - intros rs. now rewrite (proj1 (serve_reference_tables rs s)).
  - intros rs.
    rewrite init_db_seeded; rewrite ?(proj1 (serve_reference_tables rs _)),
      ?(proj2 (serve_reference_tables rs _)); try apply init_db_not_empty.
    reflexivity.
  - apply init_db_idempotent.
  - rewrite init_db_idempotent, doctors_init_db.
    destruct (doctors s) eqn:E; [now apply seeded_doctors | reflexivity].
Qed.

(** The seed rows lie at three different distances, so the listing of a
    database that [init_db] seeded does not depend on how rows at the same
    distance are ordered: it is the one ascending list of the rows. *)
Lemma seeded_listing_determined s out :
  doctors s = [] ->
  Permutation out (doctors (init_db s)) ->
  StronglySorted nearer out ->
  out = select_doctors (init_db s).
Proof.
  intros E HP Hs. unfold select_doctors.
  apply ascending_unique with (key := Doctor.distance_km).
  - rewrite HP. apply Permutation_sym, order_by_perm.
  - intros a b Ha Hb. apply (Permutation_in _ HP) in Ha, Hb.
    revert Ha Hb. rewrite doctors_init_db, E.
    unfold Sql.executemany, seed_doctors.
    cbn [fold_left Sql.insert_doctor doctors]. rewrite E. cbn [app In].
    intros [<-|[<-|[<-|[]]]] [<-|[<-|[<-|[]]]]; cbn [Doctor.distance_km];
      intros H; try reflexivity; apply Qeq_bool_iff in H; discriminate H.
  - exact Hs.
  - apply order_by_strongly_sorted.
Qed.

(** The listing of a new database: nearest first. *)
Example doctors_of_new_database :
  doctors (init_db empty_store)
  = [Doctor.Row 1 "Dr. Aditi Rao" "emergency" (49 # 10) (12 # 10);
     Doctor.Row 2 "Dr. Karan Mehta" "cardio" (48 # 10) (21 # 10);
     Doctor.Row 3 "Dr. Sana Ali" "pediatrics" (47 # 10) (9 # 10)]
  /\ List.map Doctor.name (select_doctors (init_db (init_db empty_store)))
     = ["Dr. Sana Ali"; "Dr. Aditi Rao"; "Dr. Karan Mehta"].
Proof. split; reflexivity. Qed.

(** Two doctors at the same distance are listed in rowid order. *)
Example doctors_tie :
  let table :=
    [Doctor.Row 1 "A" "x" (4 # 1) (2 # 1);
     Doctor.Row 2 "B" "x" (4 # 1) (1 # 1);
     Doctor.Row 3 "C" "x" (4 # 1) (4 # 2)] in
  List.map Doctor.id
    (select_doctors (Store [] 0 table 3 [] 0 [] 0)) = [2; 1; 3].
Proof. reflexivity. Qed.

End DoctorFacts.

(** ** Blood banks *)

Module BloodFacts.
Import StrFacts RequestFacts SortFacts.

Lemma is_empty_upper s : Str.is_empty (Str.upper s) = Str.is_empty s.
Proof. destruct s; reflexivity. Qed.

(** The handler on a request with a reading for the blood group. *)
Lemma handle_blood_check_reading r s x :
  field r "blood_group" = Some x ->
  handle_blood_check r s =
    let group := Str.upper (Str.strip (text x)) in
    if blank x then
      (send_json (JObj [("error", JStr "blood_group required")]) 400, s)
    else
      (send_json
         (JObj [("blood_group", JStr group);
                ("banks", JArr (List.map bank_dict (select_banks group s)))])
         200,
       s).
Proof.
  intros H. destruct (field_stripped _ _ H) as (data & Hd & Hs & _).
  unfold handle_blood_check, blank.
  rewrite Hd, bind_ok, Hs, bind_ok, is_empty_upper. reflexivity.
Qed.

(** Texts that differ in case only are looked up under the same group. *)
Lemma same_letters_group a b :
  same_letters a b -> Str.upper (Str.strip a) = Str.upper (Str.strip b).
Proof.
  unfold same_letters. intros H.
  rewrite <- !strip_upper, <- (upper_lower a), <- (upper_lower b).
  now rewrite H.
Qed.

Lemma same_letters_blank a b :
  same_letters a b -> blank (Text a) = blank (Text b).
Proof.
  intros H. unfold blank. cbn [text].
  rewrite <- (is_empty_upper (Str.strip a)), <- (is_empty_upper (Str.strip b)).
  now rewrite (same_letters_group H).
Qed.

Lemma filter_none (A : Type) (f : A -> bool) l :
  (forall a, In a l -> f a = false) -> filter f l = [].
Proof.
  induction l as [|a l IH]; simpl; intros H; [reflexivity|].
  rewrite (H a) by now left. apply IH. intros b Hb. apply H. now right.
Qed.

Lemma select_banks_none group s :
  (forall b, In b (blood_banks s) -> Bank.blood_group b <> group) ->
  select_banks group s = [].
Proof.
  intros H. unfold select_banks. apply order_by_nil, filter_none.
  intros b Hb. apply String.eqb_neq. now apply H.
Qed.

(** C8: two blood-group queries that differ in the case of their letters
    only get identical answers; a query that is not blank is answered 200
    with the upper-cased group and the banks of that group, and when no row
    of the table has that group the list of banks is empty. *)
Theorem blood_check_ignores_case r1 r2 s g1 g2 :
  field r1 "blood_group" = Some (Text g1) ->
  field r2 "blood_group" = Some (Text g2) ->
  same_letters g1 g2 ->
  handle_blood_check r1 s = handle_blood_check r2 s /\
  (blank (Text g1) = false ->
   handle_blood_check r1 s
   = (send_json
        (JObj [("blood_group", JStr (Str.upper (Str.strip g1)));
               ("banks",
                JArr (List.map bank_dict
                        (select_banks (Str.upper (Str.strip g1)) s)))])
        200,
      s) /\
   ((forall b, In b (blood_banks s) ->
               Bank.blood_group b <> Str.upper (Str.strip g1)) ->
    handle_blood_check r1 s
    = (send_json
         (JObj [("blood_group", JStr (Str.upper (Str.strip g1)));
                ("banks", JArr [])])
         200,
       s))).
Proof.
  intros H1 H2 Hsame.
  rewrite (@handle_blood_check_reading r1 s (Text g1) H1),
    (@handle_blood_check_reading r2 s (Text g2) H2).
  cbv zeta. cbn [text]. split.
  - now rewrite (same_letters_blank Hsame), (same_letters_group Hsame).
  - intros ->. split; [reflexivity|].
    intros Hnone. now rewrite select_banks_none.
Qed.

Lemma blood_check_ignores_case_witness :
  handle_blood_check (blood_request "a+") (init_db empty_store)
  = handle_blood_check (blood_request "A+") (init_db empty_store) /\
  handle_blood_check (blood_request "ab-") (init_db empty_store)
  = (send_json (JObj [("blood_group", JStr "AB-"); ("banks", JArr [])]) 200,
     init_db empty_store).
Proof.
  split.
  - apply (@blood_check_ignores_case (blood_request "a+") (blood_request "A+")
             (init_db empty_store) "a+" "A+"); reflexivity.
  - apply (proj2 (@blood_check_ignores_case
                    (blood_request "ab-") (blood_request "AB-")
                    (init_db empty_store) "ab-" "AB-"
                    eq_refl eq_refl eq_refl) eq_refl).
    cbn. intros b [<-|[<-|[<-|[<-|[<-|[]]]]]]; discriminate.
Defined.

(** The banks of group A+ of a new database, nearest first; the bank that
    is out of stock is listed. *)
Example blood_check_a_plus :
  List.map (fun b => (Bank.name b, Bank.units_available b))
           (select_banks "A+" (init_db empty_store))
  = [("City Blood Center", 6); ("Metro Blood Bank", 3); ("Govt. Blood Bank", 0)].
Proof. reflexivity. Qed.

End BloodFacts.

(** * Further properties *)

(** ** Stripped texts *)

Module TrimFacts.
Import Str StrFacts.

Lemma lstrip_head s :
  lstrip s = "" \/ exists c t, lstrip s = String c t /\ isspace c = false.
Proof.
  induction s as [|c s IH]; simpl; [now left|].
  destruct (isspace c) eqn:E; [exact IH|]. right. eauto.
Qed.

Lemma rstrip_keeps_head c t :
  isspace c = false -> exists t', rstrip (String c t) = String c t'.
Proof. intros E. simpl. rewrite E. destruct (rstrip t); eauto. Qed.

Lemma rstrip_idem s : rstrip (rstrip s) = rstrip s.
Proof.
  induction s as [|c s IH]; simpl; [reflexivity|].
  destruct (rstrip s) as [|d t] eqn:E.
  - destruct (isspace c) eqn:F; simpl; [reflexivity | now rewrite F].
  - change (rstrip (String c (String d t))) with
      (match rstrip (String d t) with
       | "" => if isspace c then "" else String c ""
       | String a u => String c (String a u)
       end).
    now rewrite IH.
Qed.

(** What [strip] returns, [strip] leaves as it is. *)
Lemma strip_idem s : strip (strip s) = strip s.
Proof.
  unfold strip. destruct (lstrip_head s) as [E | (c & t & E & Hc)];
    rewrite E; [reflexivity|].
  destruct (@rstrip_keeps_head c t Hc) as (t' & E').
  pose proof (rstrip_idem (String c t)) as Hi. rewrite E' in Hi.
  rewrite E'. cbn [lstrip]. rewrite Hc. exact Hi.
Qed.

Lemma strip_trimmed s : strip s <> "" -> trimmed (strip s).
Proof. intros H. split; [exact H | apply strip_idem]. Qed.

End TrimFacts.

(** ** Substrings *)

Module SubstringFacts.
Import Str.

Lemma append_assoc (a b c : string) : ((a ++ b) ++ c = a ++ (b ++ c))%string.
Proof. induction a as [|x a IH]; simpl; [|rewrite IH]; reflexivity. Qed.

Lemma prefix_iff k s :
  String.prefix k s = true <-> exists post, s = (k ++ post)%string.
Proof.
  revert s. induction k as [|a k IH]; intros s.
  - destruct s; simpl; split; eauto.
  - destruct s as [|b s]; simpl.
    + split; [discriminate | intros (post & H); discriminate].
    + destruct (ascii_dec a b) as [<-|N].
      * rewrite IH. split; intros (post & H); exists post; congruence.
      * split; [discriminate | intros (post & H); congruence].
Qed.

(** [k in s] holds exactly when [s] is some text, then [k], then some
    text. *)
Lemma contains_iff k s :
  contains k s = true <-> exists pre post, s = (pre ++ k ++ post)%string.
Proof.
  split.
  - induction s as [|c s IH]; cbn [contains]; intros H.
    + rewrite orb_false_r in H. apply prefix_iff in H as (post & H).
      exists "", post. exact H.
    + apply orb_true_iff in H as [H|H].
      * apply prefix_iff in H as (post & H). exists "", post. exact H.
      * destruct (IH H) as (pre & post & ->). exists (String c pre), post.
        reflexivity.
  - intros (pre & post & ->). induction pre as [|c pre IH].
    + assert (H : String.prefix k (k ++ post) = true)
        by (apply prefix_iff; eauto).
      cbn [append]. destruct (k ++ post)%string; cbn [contains];
        now rewrite H.
    + cbn [append contains]. rewrite IH. apply orb_true_r.
Qed.

(** A text that occurs in a part occurs in the whole. *)
Lemma contains_within k pre d post :
  contains k d = true -> contains k (pre ++ d ++ post) = true.
Proof.
  rewrite !contains_iff. intros (a & b & ->).
  exists (pre ++ a)%string, (b ++ post)%string.
  now rewrite !append_assoc.
Qed.

(** [in] composes: what contains a text contains the texts in it. *)
Lemma contains_trans a b s :
  contains a b = true -> contains b s = true -> contains a s = true.
Proof.
  intros Hab Hbs. apply contains_iff in Hbs as (pre & post & ->).
  now apply contains_within.
Qed.

End SubstringFacts.

(** ** More on the triage cascade *)

Module TriageOrder.
Import Str StrFacts SubstringFacts RequestFacts Triage.

Lemma map_app f a b : Str.map f (a ++ b) = (Str.map f a ++ Str.map f b)%string.
Proof. induction a as [|c a IH]; simpl; [|rewrite IH]; reflexivity. Qed.

Lemma lower_app a b : lower (a ++ b) = (lower a ++ lower b)%string.
Proof. apply map_app. Qed.

(** X1: The second keyword of rule 2 never decides: a text with "difficulty
    breathing" in it has "breath" in it, so rule 2 fires exactly on the
    texts with "breath" or "asthma". *)
Theorem difficulty_breathing_is_subsumed text :
  (contains "difficulty breathing" text = true ->
   contains "breath" text = true) /\
  matches ["breath"; "difficulty breathing"; "asthma"] text
  = matches ["breath"; "asthma"] text.
Proof.
  assert (H : contains "difficulty breathing" text = true ->
              contains "breath" text = true)
    by (apply contains_trans; reflexivity).
  split; [exact H|].
  unfold matches. cbn [existsb].
  destruct (contains "breath" text); [reflexivity|].
  destruct (contains "difficulty breathing" text); [|reflexivity].
  now discriminate H.
Qed.

Lemma difficulty_breathing_is_subsumed_witness :
  contains "breath" "I have difficulty breathing at night" = true.
Proof.
  apply (proj1 (difficulty_breathing_is_subsumed
                  "I have difficulty breathing at night")).
  reflexivity.
Defined.

Lemma matches_within keywords pre d post :
  matches keywords d = true -> matches keywords (pre ++ d ++ post) = true.
Proof.
  unfold matches. rewrite !existsb_exists.
  intros (k & Hin & Hk). exists k. split; [exact Hin|].
  now apply contains_within.
Qed.

(** The chain with its four tests named. *)
Lemma classify_tests text :
  classify text =
    if matches ["chest"; "stroke"; "unconscious"] text then v_critical
    else if matches ["breath"; "difficulty breathing"; "asthma"] text
    then v_breathing
    else if matches ["bleeding"; "blood"] text then v_bleeding
    else if matches ["fever"; "temperature"] text then v_fever
    else v_default.
Proof.
  unfold classify, matches. cbn [existsb].
  now rewrite !orb_false_r, !orb_assoc.
Qed.

(** X2: Text added before or after a description never lowers the severity
    of the verdict. *)
Theorem more_text_never_lowers_severity pre d post :
  (severity_rank (classify (lower d))
   <= severity_rank (classify (lower (pre ++ d ++ post))))%nat.
Proof.
  rewrite !lower_app, !classify_tests.
  set (t := lower d). set (t' := (lower pre ++ t ++ lower post)%string).
  pose proof (@matches_within ["chest"; "stroke"; "unconscious"]
                (lower pre) t (lower post)) as H1.
  pose proof (@matches_within ["breath"; "difficulty breathing"; "asthma"]
                (lower pre) t (lower post)) as H2.
  pose proof (@matches_within ["bleeding"; "blood"]
                (lower pre) t (lower post)) as H3.
  pose proof (@matches_within ["fever"; "temperature"]
                (lower pre) t (lower post)) as H4.
  fold t' in H1, H2, H3, H4.
  destruct (matches ["chest"; "stroke"; "unconscious"] t);
    [rewrite H1 by reflexivity; apply Nat.le_refl|].
  destruct (matches ["chest"; "stroke"; "unconscious"] t');
    [destruct (matches _ t); [|destruct (matches _ t); [|destruct (matches _ t)]];
     cbv; repeat constructor|].
  destruct (matches ["breath"; "difficulty breathing"; "asthma"] t);
    [rewrite H2 by reflexivity; apply Nat.le_refl|].
  destruct (matches ["breath"; "difficulty breathing"; "asthma"] t');
    [destruct (matches _ t); [|destruct (matches _ t)];
     cbv; repeat constructor|].
  destruct (matches ["bleeding"; "blood"] t);
    [rewrite H3 by reflexivity; apply Nat.le_refl|].
  destruct (matches ["bleeding"; "blood"] t');
    [destruct (matches _ t); cbv; repeat constructor|].
  destruct (matches ["fever"; "temperature"] t);
    [rewrite H4 by reflexivity; apply Nat.le_refl|].
  destruct (matches ["fever"; "temperature"] t'); cbv; repeat constructor.
Qed.

(** X3: The verdict is critical, and the urgency emergency, exactly on the
    texts that hold one of the keywords of rule 1. *)
Theorem critical_iff_rule_1 text :
  (severity (classify text) = "critical"
   <-> matches ["chest"; "stroke"; "unconscious"] text = true) /\
  (urgency (classify text) = "emergency"
   <-> matches ["chest"; "stroke"; "unconscious"] text = true).
Proof.
  rewrite classify_tests.
  destruct (matches ["chest"; "stroke"; "unconscious"] text).
  - split; split; reflexivity.
  - destruct (matches _ text);
      [|destruct (matches _ text); [|destruct (matches _ text)]];
      split; split; discriminate.
Qed.

(** The handler on a request with a reading for the description. *)
Lemma handle_symptom_checker_reading r s x :
  field r "description" = Some x ->
  handle_symptom_checker r s =
    (if blank x
     then send_json
            (JObj [("error", JStr "description required");
                   ("message", JStr "please describe at least one symptom")])
            400
     else send_json (verdict_dict (classify (lower (text x)))) 200,
     s).
Proof.
  intros H. destruct (field_stripped _ _ H) as (data & Hd & _ & Hl).
  unfold handle_symptom_checker, blank.
  rewrite Hd, bind_ok, Hl, blank_lower.
  now destruct (is_empty (strip (text x))).
Qed.

(** X4: The symptom checker does not look at the case of the letters: two
    descriptions that differ in case only get the same answer. *)
Theorem symptom_checker_ignores_case r1 r2 s d1 d2 :
  field r1 "description" = Some (Text d1) ->
  field r2 "description" = Some (Text d2) ->
  same_letters d1 d2 ->
  handle_symptom_checker r1 s = handle_symptom_checker r2 s.
Proof.
  intros H1 H2 Hsame.
  rewrite (@handle_symptom_checker_reading r1 s (Text d1) H1),
    (@handle_symptom_checker_reading r2 s (Text d2) H2).
  unfold blank, same_letters in *. cbn [text].
  rewrite <- (blank_lower d1), <- (blank_lower d2).
  now rewrite Hsame.
Qed.

Lemma symptom_checker_ignores_case_witness :
  handle_symptom_checker
    (symptom_request (Json (JObj [("description", JStr "CHEST pain")])))
    empty_store
  = handle_symptom_checker
      (symptom_request (Json (JObj [("description", JStr "chest Pain")])))
      empty_store.
Proof.
  apply (@symptom_checker_ignores_case _ _ _ "CHEST pain" "chest Pain");
    reflexivity.
Defined.

End TriageOrder.

(** ** Exceptions, status codes and effects *)

Module ErrorFacts.
Import StrFacts RequestFacts LoginFacts.

Lemma get_raises data key e : Py.get data key = Raise e -> e = AttributeError.
Proof.
  destruct data; simpl; try congruence.
  destruct (Py.lookup key fields); discriminate.
Qed.

Lemma stripped_readable data key :
  readable data key = true -> exists t, stripped data key = Ok t.
Proof.
  unfold readable, stripped.
  destruct (Py.get data key) as [v|]; [|discriminate]. rewrite bind_ok.
  destruct (Py.or_empty v); try discriminate. simpl. eauto.
Qed.

Lemma stripped_unreadable data key :
  readable data key = false -> stripped data key = Raise AttributeError.
Proof.
  unfold readable, stripped.
  destruct (Py.get data key) as [v|e] eqn:E.
  - rewrite bind_ok. destruct (Py.or_empty v); try discriminate; reflexivity.
  - intros _. now rewrite (get_raises _ _ E).
Qed.

Lemma lowered_unreadable data key :
  readable data key = false ->
  (v <- Py.get data key ;; Py.lower (Py.or_empty v)) = Raise AttributeError.
Proof.
  unfold readable.
  destruct (Py.get data key) as [v|e] eqn:E.
  - rewrite bind_ok. destruct (Py.or_empty v); try discriminate; reflexivity.
  - intros _. now rewrite (get_raises _ _ E).
Qed.

(** Reading one more key, in the order of the handler. *)
Ltac read_key data key :=
  let E := fresh "E" in
  let t := fresh "t" in
  let Ht := fresh "Ht" in
  destruct (readable data key) eqn:E;
  [ destruct (stripped_readable _ _ E) as (t & Ht); rewrite Ht, bind_ok
  | rewrite (stripped_unreadable _ _ E); cbn [bind fst] ].

Ltac pick_key :=
  match goal with
  | H : _ \/ _ |- _ => destruct H as [<- | H]; [try congruence | pick_key]
  | H : False |- _ => destruct H
  | H : In _ [] |- _ => destruct H
  end.

Lemma login_raises r s data key :
  read_json_body r = Ok data ->
  In key ["phone"; "otp"] -> readable data key = false ->
  handle_login r s = (Escaped AttributeError, s).
Proof.
  intros H Hin Hk. unfold handle_login. rewrite H, bind_ok.
  read_key data "phone"; [|reflexivity].
  read_key data "otp"; [|reflexivity].
  simpl in Hin. pick_key.
Qed.

Lemma symptom_raises r s data key :
  read_json_body r = Ok data ->
  In key ["description"] -> readable data key = false ->
  handle_symptom_checker r s = (Escaped AttributeError, s).
Proof.
  intros H Hin Hk. unfold handle_symptom_checker. rewrite H, bind_ok.
  destruct (readable data "description") eqn:E.
  - simpl in Hin. pick_key.
  - now rewrite (lowered_unreadable _ _ E).
Qed.

Lemma ambulance_raises r s data key :
  read_json_body r = Ok data ->
  In key ["phone"; "pickup_location"; "destination"] ->
  readable data key = false ->
  handle_ambulance_book r s = (Escaped AttributeError, s).
Proof.
  intros H Hin Hk. unfold handle_ambulance_book. rewrite H, bind_ok.
  read_key data "phone"; [|reflexivity].
  read_key data "pickup_location"; [|reflexivity].
  read_key data "destination"; [|reflexivity].
  simpl in Hin. pick_key.
Qed.

Lemma blood_raises r s data key :
  read_json_body r = Ok data ->
  In key ["blood_group"] -> readable data key = false ->
  handle_blood_check r s = (Escaped AttributeError, s).
Proof.
  intros H Hin Hk. unfold handle_blood_check. rewrite H, bind_ok.
  read_key data "blood_group"; [|reflexivity].
  simpl in Hin. pick_key.
Qed.

Lemma falsy_is_missing data key v :
  Py.get data key = Ok v -> Py.truthy v = false -> stripped data key = Ok "".
Proof.
  intros Hg Hv. unfold stripped, Py.or_empty. now rewrite Hg, bind_ok, Hv.
Qed.

(** X5: on a POST to one of the four routes nothing is validated or
    written before every field of the route is read.  When the body
    cannot be read the exception of [read_json_body] leaves the handler;
    when the parsed body is not an object, or holds under any key that
    the handler reads a value that is neither falsy nor a text,
    [AttributeError] leaves the handler, whatever the other fields are;
    the store stays as it is.  A falsy value (null, 0, false, [], {}) under
    a key is read as a missing field. *)
Theorem unreadable_request_raises r s :
  command r = "POST" -> fields_read (path r) <> [] ->
  (forall e, read_json_body r = Raise e ->
             handle_one_request r s = (Escaped e, s)) /\
  (forall data key,
     read_json_body r = Ok data ->
     In key (fields_read (path r)) -> readable data key = false ->
     handle_one_request r s = (Escaped AttributeError, s)) /\
  (forall data key v,
     read_json_body r = Ok data ->
     Py.get data key = Ok v -> Py.truthy v = false -> missing data key).
Proof.
  intros Hc Hf.
  split; [|split; [|intros data key v _; apply falsy_is_missing]].
  - intros e He. revert Hf.
    unfold handle_one_request, do_POST, fields_read. rewrite Hc.
    cbn [String.eqb Ascii.eqb Bool.eqb andb].
    unfold handle_login, handle_symptom_checker, handle_ambulance_book,
      handle_blood_check. rewrite He. cbn [bind].
    repeat match goal with
           | |- context [String.eqb (path r) ?p] =>
               destruct (String.eqb (path r) p)
           end; try reflexivity.
    congruence.
  - intros data key Hd. revert Hf.
    unfold handle_one_request, do_POST, fields_read. rewrite Hc.
    cbn [String.eqb Ascii.eqb Bool.eqb andb].
    destruct (String.eqb (path r) "/api/login");
      [intros _; now apply login_raises|].
    destruct (String.eqb (path r) "/api/symptom-checker");
      [intros _; now apply symptom_raises|].
    destruct (String.eqb (path r) "/api/ambulance/book");
      [intros _; now apply ambulance_raises|].
    destruct (String.eqb (path r) "/api/blood/check");
      [intros _; now apply blood_raises|].
    congruence.
Qed.

Lemma unreadable_request_raises_witness :
  handle_one_request
    (booking_request [("pickup_location", JInt 0); ("destination", JInt 7)])
    empty_store
  = (Escaped AttributeError, empty_store) /\
  missing (JObj [("pickup_location", JInt 0); ("destination", JInt 7)])
          "pickup_location".
Proof.
  destruct (@unreadable_request_raises
              (booking_request [("pickup_location", JInt 0);
                                ("destination", JInt 7)])
              empty_store) as (_ & Hkey & Hfalsy).
  - reflexivity.
  - discriminate.
  - split.
    + apply (Hkey (JObj [("pickup_location", JInt 0); ("destination", JInt 7)])
                  "destination");
        [reflexivity | simpl; tauto | reflexivity].
    + apply (Hfalsy (JObj [("pickup_location", JInt 0);
                           ("destination", JInt 7)])
                    "pickup_location" (JInt 0)); reflexivity.
Defined.

End ErrorFacts.

Module OutcomeFacts.
Import StrFacts RequestFacts LoginFacts.

Lemma stripped_is_strip data key t :
  stripped data key = Ok t -> exists d, t = Str.strip d.
Proof.
  unfold stripped. destruct (Py.get data key) as [v|]; [|discriminate].
  rewrite bind_ok. destruct (Py.or_empty v); try discriminate.
  simpl. intros [= <-]. eauto.
Qed.

Lemma is_empty_false t : Str.is_empty t = false -> t <> "".
Proof. destruct t; [discriminate | congruence]. Qed.

(** The three ways a login ends. *)
Lemma login_outcome r s :
  (exists e, handle_login r s = (Escaped e, s)) \/
  (exists data, handle_login r s = (send_json data 400, s)) \/
  (exists phone u,
     handle_login r s
     = (logged_in u, Sql.insert_or_ignore_user phone (now r) s) /\
     Sql.select_user phone (Sql.insert_or_ignore_user phone (now r) s)
     = Some u /\
     phone <> "" /\ (exists d, phone = Str.strip d)).
Proof.
  unfold handle_login.
  destruct (read_json_body r) as [data|e]; [rewrite bind_ok | left; eexists; reflexivity].
  destruct (stripped data "phone") as [phone|e] eqn:Ephone;
    [rewrite bind_ok | left; eexists; reflexivity].
  destruct (stripped data "otp") as [otp|e]; [rewrite bind_ok | left; eexists; reflexivity].
  destruct (Str.is_empty phone) eqn:E1; [right; left; eexists; reflexivity|].
  destruct (Str.is_empty otp); [right; left; eexists; reflexivity|]. cbn [orb].
  destruct (negb _); [right; left; eexists; reflexivity|].
  right. right. cbv zeta.
  destruct (select_after_insert phone (now r) s) as (u & Hsel & _).
  rewrite Hsel. exists phone, u.
  split; [reflexivity|]. split; [exact Hsel|].
  split; [now apply is_empty_false | eapply stripped_is_strip; eassumption].
Qed.

(** The three ways a booking ends. *)
Lemma booking_outcome r s :
  (exists e, handle_ambulance_book r s = (Escaped e, s)) \/
  (exists data, handle_ambulance_book r s = (send_json data 400, s)) \/
  (exists phone pickup dest,
     handle_ambulance_book r s
     = (booked (fst (Sql.insert_booking (Some phone) (Some pickup) (Some dest)
                                        (Some "BOOKED") (now r) s)),
        snd (Sql.insert_booking (Some phone) (Some pickup) (Some dest)
                                (Some "BOOKED") (now r) s)) /\
     pickup <> "" /\ (exists d, pickup = Str.strip d)).
Proof.
  unfold handle_ambulance_book.
  destruct (read_json_body r) as [data|e]; [rewrite bind_ok | left; eexists; reflexivity].
  destruct (stripped data "phone") as [phone|e];
    [rewrite bind_ok | left; eexists; reflexivity].
  destruct (stripped data "pickup_location") as [pickup|e] eqn:Epickup;
    [rewrite bind_ok | left; eexists; reflexivity].
  destruct (stripped data "destination") as [dest|e];
    [rewrite bind_ok | left; eexists; reflexivity].
  destruct (Str.is_empty pickup) eqn:E1; [right; left; eexists; reflexivity|].
  right. right. exists phone, pickup, dest.
  split; [reflexivity|].
  split; [now apply is_empty_false | eapply stripped_is_strip; eassumption].
Qed.

(** The symptom checker and the blood check answer 200 or 400, or raise,
    and write nothing. *)
Lemma symptom_outcome r s :
  snd (handle_symptom_checker r s) = s /\
  ((exists e, fst (handle_symptom_checker r s) = Escaped e) \/
   (exists data, fst (handle_symptom_checker r s) = send_json data 400) \/
   (exists data, fst (handle_symptom_checker r s) = send_json data 200)).
Proof.
  unfold handle_symptom_checker.
  destruct (_ <- read_json_body r ;; _) as [t|e];
    [|split; [reflexivity | left; eexists; reflexivity]].
  destruct (Str.is_empty _); (split; [reflexivity|]);
    [right; left | right; right]; eexists; reflexivity.
Qed.

Lemma blood_outcome r s :
  snd (handle_blood_check r s) = s /\
  ((exists e, fst (handle_blood_check r s) = Escaped e) \/
   (exists data, fst (handle_blood_check r s) = send_json data 400) \/
   (exists data, fst (handle_blood_check r s) = send_json data 200)).
Proof.
  unfold handle_blood_check.
  destruct (_ <- read_json_body r ;; _) as [t|e];
    [|split; [reflexivity | left; eexists; reflexivity]].
  destruct (Str.is_empty _); (split; [reflexivity|]);
    [right; left | right; right]; eexists; reflexivity.
Qed.

(** X6: The server answers 200, 400, 404 or 501 and nothing else: the 500
    branch of the login is never taken, since the SELECT that follows the
    INSERT OR IGNORE always finds a row. *)
Theorem status_codes r s resp :
  fst (handle_one_request r s) = Sent resp ->
  In (status resp) [200; 400; 404; 501].
Proof.
  unfold handle_one_request, do_OPTIONS, do_POST, do_GET, handle_doctors.
  destruct (String.eqb (command r) "OPTIONS");
    [cbn; intros [= <-]; cbn; tauto|].
  destruct (String.eqb (command r) "POST").
  - destruct (String.eqb (path r) "/api/login").
    { destruct (login_outcome r s)
        as [(e & ->) | [(d & ->) | (phone & u & -> & _)]];
        cbn; intros [= <-]; cbn; tauto. }
    destruct (String.eqb (path r) "/api/symptom-checker").
    { destruct (symptom_outcome r s)
        as (_ & [(e & ->) | [(d & ->) | (d & ->)]]);
        cbn; intros [= <-]; cbn; tauto. }
    destruct (String.eqb (path r) "/api/ambulance/book").
    { destruct (booking_outcome r s)
        as [(e & ->) | [(d & ->) | (phone & pickup & dest & -> & _)]];
        cbn; intros [= <-]; cbn; tauto. }
    destruct (String.eqb (path r) "/api/blood/check").
    { destruct (blood_outcome r s)
        as (_ & [(e & ->) | [(d & ->) | (d & ->)]]);
        cbn; intros [= <-]; cbn; tauto. }
    cbn. intros [= <-]. cbn. tauto.
  - destruct (String.eqb (command r) "GET");
      [destruct (String.eqb (path r) "/api/doctors")|];
      cbn; intros [= <-]; cbn; tauto.
Qed.

Lemma status_codes_witness :
  In 400 [200; 400; 404; 501].
Proof.
  apply (@status_codes (login_request "9876543210" "12345") empty_store
           (Response 400
              (JsonBody (JObj [("error", JStr "invalid otp, must be 6 digits")])))).
  reflexivity.
Defined.



End OutcomeFacts.

(** ** What the tables keep *)

Module InvariantFacts.
Import StrFacts RequestFacts LoginFacts TrimFacts OutcomeFacts DoctorFacts.

Lemma max_rowid_ge ids x : In x ids -> x <= Sql.max_rowid ids.
Proof.
  induction ids as [|y ids IH]; simpl; [tauto|].
  intros [->|H]; [|apply IH in H]; lia.
Qed.

Lemma max_rowid_nonneg ids : 0 <= Sql.max_rowid ids.
Proof. induction ids as [|y ids IH]; simpl; lia. Qed.

Lemma next_rowid_fresh seq ids x : In x ids -> x < Sql.next_rowid seq ids.
Proof. intros H. apply max_rowid_ge in H. unfold Sql.next_rowid. lia. Qed.

Lemma next_rowid_bounds seq ids :
  0 < Sql.next_rowid seq ids /\ seq < Sql.next_rowid seq ids.
Proof.
  pose proof (max_rowid_nonneg ids). unfold Sql.next_rowid. lia.
Qed.

Lemma sorted_snoc l x :
  StronglySorted Z.lt l -> (forall y, In y l -> y < x) ->
  StronglySorted Z.lt (l ++ [x]).
Proof.
  induction l as [|a l IH]; simpl; intros Hs Hlt.
  - repeat constructor.
  - apply StronglySorted_inv in Hs as [Hs Ha]. constructor.
    + apply IH; [assumption|]. intros y Hy. apply Hlt. now right.
    + apply Forall_app. split; [assumption|].
      constructor; [|constructor]. apply Hlt. now left.
Qed.

Lemma nodup_snoc (A : Type) (l : list A) x :
  NoDup l -> ~ In x l -> NoDup (l ++ [x]).
Proof.
  intros Hl Hx. apply NoDup_app; [assumption | repeat constructor; tauto |].
  intros y Hy [<-|[]]. contradiction.
Qed.

Lemma unknown_phone phone rows :
  existsb (fun u => String.eqb (User.phone u) phone) rows = false ->
  ~ In phone (List.map User.phone rows).
Proof.
  intros E H. apply in_map_iff in H as (u & <- & Hu).
  assert (existsb (fun v => String.eqb (User.phone v) (User.phone u)) rows
          = true)
    by (apply existsb_exists; exists u; split;
        [assumption | apply String.eqb_refl]).
  congruence.
Qed.

(** [INSERT OR IGNORE] of a trimmed phone keeps the users table in
    order. *)
Lemma insert_user_ok phone t s :
  trimmed phone -> users_ok s ->
  users_ok (Sql.insert_or_ignore_user phone t s).
Proof.
  intros Ht (Hnd & Hsort & Hall).
  pose proof (next_rowid_bounds (users_seq s) (List.map User.id (users s)))
    as [Hpos Hseq].
  unfold users_ok, Sql.insert_or_ignore_user. cbn [users users_seq].
  destruct (existsb _ (users s)) eqn:E.
  - repeat split; try assumption.
    eapply Forall_impl; [|exact Hall]. cbv beta. intros u [Hu Htu].
    split; [lia | assumption].
  - rewrite !map_app. cbn [List.map User.phone User.id].
    split; [|split].
    + apply nodup_snoc; [assumption | now apply unknown_phone].
    + apply sorted_snoc; [assumption|]. apply next_rowid_fresh.
    + apply Forall_app. split.
      * eapply Forall_impl; [|exact Hall]. cbv beta. intros u [Hu Htu].
        split; [lia | assumption].
      * constructor; [|constructor]. cbn [User.id User.phone].
        split; [lia | assumption].
Qed.

Lemma insert_booking_ok phone pickup dest t s :
  trimmed pickup -> bookings_ok s ->
  bookings_ok (snd (Sql.insert_booking (Some phone) (Some pickup) (Some dest)
                                       (Some "BOOKED") t s)).
Proof.
  intros Ht (Hsort & Hall).
  pose proof (next_rowid_bounds (ambulance_bookings_seq s)
                (List.map Booking.id (ambulance_bookings s))) as [Hpos Hseq].
  unfold bookings_ok, Sql.insert_booking.
  cbn [snd ambulance_bookings ambulance_bookings_seq].
  rewrite !map_app. cbn [List.map Booking.id]. split.
  - apply sorted_snoc; [assumption|]. apply next_rowid_fresh.
  - apply Forall_app. split.
    + eapply Forall_impl; [|exact Hall]. cbv beta. intros b [Hb Hok].
      split; [lia | assumption].
    + constructor; [|constructor]. cbn [Booking.id]. split; [lia|].
      unfold booking_ok.
      cbn [Booking.status Booking.pickup_location Booking.user_phone
           Booking.destination].
      repeat split; try discriminate.
      exists pickup. split; [reflexivity | exact Ht].
Qed.

Lemma trimmed_strip d : Str.strip d <> "" -> trimmed (Str.strip d).
Proof. apply strip_trimmed. Qed.

(** What a request does to the store: nothing, the [INSERT OR IGNORE] of
    a trimmed phone, or the [INSERT] of a booking with a trimmed pickup
    location. *)
Lemma request_effect r s :
  snd (handle_one_request r s) = s \/
  (exists phone,
     trimmed phone /\
     snd (handle_one_request r s)
     = Sql.insert_or_ignore_user phone (now r) s) \/
  (exists phone pickup dest,
     trimmed pickup /\
     snd (handle_one_request r s)
     = snd (Sql.insert_booking (Some phone) (Some pickup) (Some dest)
                               (Some "BOOKED") (now r) s)).
Proof.
  unfold handle_one_request, do_OPTIONS, do_POST, do_GET, handle_doctors.
  destruct (String.eqb (command r) "OPTIONS"); [now left|].
  destruct (String.eqb (command r) "POST").
  - destruct (String.eqb (path r) "/api/login").
    { destruct (login_outcome r s)
        as [(e & ->) | [(d & ->) | (phone & u & -> & _ & Hne & d & Hd)]];
        [now left | now left |].
      right. left. exists phone. split; [|reflexivity].
      subst phone. now apply trimmed_strip. }
    destruct (String.eqb (path r) "/api/symptom-checker").
    { left. apply symptom_outcome. }
    destruct (String.eqb (path r) "/api/ambulance/book").
    { destruct (booking_outcome r s)
        as [(e & ->) | [(d & ->) | (phone & pickup & dest & -> & Hne & d & Hd)]];
        [now left | now left |].
      right. right. exists phone, pickup, dest. split; [|reflexivity].
      subst pickup. now apply trimmed_strip. }
    destruct (String.eqb (path r) "/api/blood/check").
    { left. apply blood_outcome. }
    now left.
  - destruct (String.eqb (command r) "GET");
      [destruct (String.eqb (path r) "/api/doctors")|]; now left.
Qed.

(** X8: The users table stays in order under every request: there is one row
    per phone, the ids ascend in insertion order and lie within the
    AUTOINCREMENT counter, and every phone is stored stripped and not
    empty. *)
Theorem users_table_invariant r s :
  users_ok s -> users_ok (snd (handle_one_request r s)).
Proof.
  intros H.
  destruct (request_effect r s)
    as [-> | [(phone & Ht & ->) | (phone & pickup & dest & _ & ->)]].
  - exact H.
  - now apply insert_user_ok.
  - exact H.
Qed.

Lemma users_ok_empty : users_ok empty_store.
Proof. repeat constructor. Qed.

Lemma users_table_invariant_witness :
  users_ok (snd (handle_one_request (login_request " 9876543210 " "123456")
                                    empty_store)).
Proof. apply users_table_invariant, users_ok_empty. Defined.

(** X9: The bookings table stays in order under every request: the ids
    ascend in insertion order and lie within the AUTOINCREMENT counter,
    and every row has status "BOOKED", a pickup location that is stripped
    and not empty, and no NULL in user_phone and destination. *)
Theorem bookings_table_invariant r s :
  bookings_ok s -> bookings_ok (snd (handle_one_request r s)).
Proof.
  intros H.
  destruct (request_effect r s)
    as [-> | [(phone & Ht & ->) | (phone & pickup & dest & Ht & ->)]].
  - exact H.
  - exact H.
  - now apply insert_booking_ok.
Qed.

Lemma bookings_ok_empty : bookings_ok empty_store.
Proof. repeat constructor. Qed.

Lemma bookings_table_invariant_witness :
  bookings_ok
    (snd (handle_one_request
            (booking_request [("pickup_location", JStr " Station ")])
            empty_store)).
Proof. apply bookings_table_invariant, bookings_ok_empty. Defined.

Lemma users_ok_serve rs : forall s,
  users_ok s -> users_ok (snd (serve rs s)).
Proof.
  induction rs as [|r rs IH]; intros s Hu; cbn [serve]; [exact Hu|].
  assert (H1 : users_ok (snd (handle_one_request r s))).
  { destruct (request_effect r s)
      as [-> | [(phone & Ht & ->) | (phone & pickup & dest & Ht & ->)]];
      [exact Hu | now apply insert_user_ok | exact Hu]. }
  destruct (handle_one_request r s) as [a s1]. cbn [snd] in H1.
  pose proof (IH s1 H1) as H2.
  destruct (serve rs s1) as [out s2]. exact H2.
Qed.

Lemma serve_invariants rs : forall s,
  users_ok s -> bookings_ok s ->
  users_ok (snd (serve rs s)) /\ bookings_ok (snd (serve rs s)).
Proof.
  induction rs as [|r rs IH]; intros s Hu Hb; cbn [serve]; [now split|].
  assert (H1 : users_ok (snd (handle_one_request r s)) /\
               bookings_ok (snd (handle_one_request r s))).
  { destruct (request_effect r s)
      as [-> | [(phone & Ht & ->) | (phone & pickup & dest & Ht & ->)]].
    - now split.
    - split; [now apply insert_user_ok | exact Hb].
    - split; [exact Hu | now apply insert_booking_ok]. }
  destruct (handle_one_request r s) as [a s1]. cbn [snd] in H1.
  pose proof (IH s1 (proj1 H1) (proj2 H1)) as H2.
  destruct (serve rs s1) as [out s2]. exact H2.
Qed.

Lemma users_insert_doctors rows : forall s,
  users (Sql.executemany Sql.insert_doctor rows s) = users s /\
  users_seq (Sql.executemany Sql.insert_doctor rows s) = users_seq s /\
  ambulance_bookings (Sql.executemany Sql.insert_doctor rows s)
  = ambulance_bookings s /\
  ambulance_bookings_seq (Sql.executemany Sql.insert_doctor rows s)
  = ambulance_bookings_seq s.
Proof.
  unfold Sql.executemany.
  induction rows as [|[[[n g] u] d] rows IH]; intros s; cbn [fold_left];
    [repeat split|].
  destruct (IH (Sql.insert_doctor (n, g, u, d) s)) as (-> & -> & -> & ->).
  repeat split.
Qed.

Lemma users_insert_banks rows : forall s,
  users (Sql.executemany Sql.insert_bank rows s) = users s /\
  users_seq (Sql.executemany Sql.insert_bank rows s) = users_seq s /\
  ambulance_bookings (Sql.executemany Sql.insert_bank rows s)
  = ambulance_bookings s /\
  ambulance_bookings_seq (Sql.executemany Sql.insert_bank rows s)
  = ambulance_bookings_seq s.
Proof.
  unfold Sql.executemany.
  induction rows as [|[[[n g] u] d] rows IH]; intros s; cbn [fold_left];
    [repeat split|].
  destruct (IH (Sql.insert_bank (n, g, u, d) s)) as (-> & -> & -> & ->).
  repeat split.
Qed.

Lemma init_db_accounts s :
  users (init_db s) = users s /\
  users_seq (init_db s) = users_seq s /\
  ambulance_bookings (init_db s) = ambulance_bookings s /\
  ambulance_bookings_seq (init_db s) = ambulance_bookings_seq s.
Proof.
  unfold init_db. cbv zeta.
  destruct (_ =? 0);
    match goal with
    | |- context [if ?b then _ else _] => destruct b
    end;
    repeat match goal with
           | |- context [Sql.executemany Sql.insert_bank ?rows ?x] =>
               destruct (users_insert_banks rows x) as (-> & -> & -> & ->)
           | |- context [Sql.executemany Sql.insert_doctor ?rows ?x] =>
               destruct (users_insert_doctors rows x) as (-> & -> & -> & ->)
           end; repeat split.
Qed.

(** X10: [init_db] on a database that holds data: the users and the bookings
    with their counters stay as they are, a doctors table and a blood-banks
    table that hold rows stay as they are, and an empty blood-banks table
    receives the five seed rows. *)
Theorem init_db_keeps_data s :
  users (init_db s) = users s /\
  users_seq (init_db s) = users_seq s /\
  ambulance_bookings (init_db s) = ambulance_bookings s /\
  ambulance_bookings_seq (init_db s) = ambulance_bookings_seq s /\
  (doctors s <> [] -> doctors (init_db s) = doctors s) /\
  (blood_banks s <> [] -> blood_banks (init_db s) = blood_banks s) /\
  (blood_banks s = [] ->
   List.map bank_columns (blood_banks (init_db s)) = seed_blood_rows).
Proof.
  pose proof (init_db_accounts s) as H.
  destruct H as (H1 & H2 & H3 & H4).
  repeat split; try assumption.
  - intros Hd. rewrite doctors_init_db. destruct (doctors s); congruence.
  - apply blood_banks_init_db.
  - apply blood_banks_init_db_empty.
Qed.

Lemma init_db_keeps_data_witness :
  blood_banks (init_db (init_db empty_store))
  = blood_banks (init_db empty_store).
Proof.
  apply (proj1 (proj2 (proj2 (proj2 (proj2 (proj2
           (init_db_keeps_data (init_db empty_store)))))))).
  discriminate.
Defined.

(** X11: A server started on a new database keeps both tables in order,
    whatever requests it serves. *)
Theorem new_database_stays_in_order rs :
  users_ok (snd (run_server rs empty_store)) /\
  bookings_ok (snd (run_server rs empty_store)).
Proof.
  unfold run_server. apply serve_invariants.
  - destruct (init_db_accounts empty_store) as (Hu & Hs & _).
    unfold users_ok. rewrite Hu, Hs. apply users_ok_empty.
  - destruct (init_db_accounts empty_store) as (_ & _ & Hb & Hs).
    unfold bookings_ok. rewrite Hb, Hs. apply bookings_ok_empty.
Qed.

End InvariantFacts.

(** ** Accounts *)

Module AccountFacts.
Import StrFacts RequestFacts LoginFacts OutcomeFacts InvariantFacts.

Lemma logged_in_inj u v : logged_in u = logged_in v -> u = v.
Proof.
  destruct u, v. unfold logged_in, send_json, user_dict. cbn.
  intros H. injection H as -> -> ->. reflexivity.
Qed.

(** A login that is answered 200. *)
Lemma login_accepted r s u s1 :
  handle_login r s = (logged_in u, s1) ->
  s1 = Sql.insert_or_ignore_user (User.phone u) (now r) s /\
  Sql.select_user (User.phone u) s1 = Some u /\
  In u (users s1).
Proof.
  destruct (login_outcome r s)
    as [(e & ->) | [(d & ->) | (phone & v & -> & Hsel & _)]];
    [discriminate | discriminate |].
  intros H. assert (Hv : v = u) by (apply logged_in_inj; congruence).
  assert (Hs : s1 = Sql.insert_or_ignore_user phone (now r) s) by congruence.
  subst v s1.
  assert (Hphone : User.phone u = phone).
  { unfold Sql.select_user in Hsel. apply find_some in Hsel as [_ Hsel].
    now apply String.eqb_eq. }
  rewrite Hphone. repeat split; [assumption|].
  unfold Sql.select_user in Hsel. now apply find_some in Hsel as [Hin _].
Qed.

(** Rows are only ever added to the users table, at its end. *)
Lemma users_grow r s :
  exists extra, users (snd (handle_one_request r s)) = (users s ++ extra)%list.
Proof.
  destruct (request_effect r s)
    as [-> | [(phone & _ & ->) | (phone & pickup & dest & _ & ->)]].
  - exists []. now rewrite app_nil_r.
  - unfold Sql.insert_or_ignore_user. cbn [users].
    destruct (existsb _ _); [exists []; now rewrite app_nil_r | eauto].
  - exists []. cbn. now rewrite app_nil_r.
Qed.

Lemma users_grow_serve rs : forall s,
  exists extra, users (snd (serve rs s)) = (users s ++ extra)%list.
Proof.
  induction rs as [|r rs IH]; intros s; cbn [serve].
  - exists []. cbn. now rewrite app_nil_r.
  - destruct (users_grow r s) as (e1 & H1).
    destruct (handle_one_request r s) as [a s1]. cbn [snd] in H1.
    destruct (IH s1) as (e2 & H2).
    destruct (serve rs s1) as [out s2]. cbn [snd] in *.
    exists (e1 ++ e2)%list. now rewrite H2, H1, app_assoc.
Qed.

Lemma find_app_hit (A : Type) (f : A -> bool) l extra x :
  find f l = Some x -> find f (l ++ extra) = Some x.
Proof.
  induction l as [|y l IH]; simpl; [discriminate|].
  destruct (f y); [trivial | exact IH].
Qed.

Lemma find_existsb (A : Type) (f : A -> bool) l x :
  find f l = Some x -> existsb f l = true.
Proof.
  intros H. apply find_some in H as [Hin Hf].
  apply existsb_exists. eauto.
Qed.

(** X12: A user who has logged in is known from then on: after any requests,
    a login under the same phone is answered with the same record, id and
    creation time included, and adds no row. *)
Theorem login_is_remembered r1 s u1 s1 between s2 r2 u2 s3 :
  handle_login r1 s = (logged_in u1, s1) ->
  snd (serve between s1) = s2 ->
  handle_login r2 s2 = (logged_in u2, s3) ->
  User.phone u2 = User.phone u1 ->
  u2 = u1 /\ users s3 = users s2.
Proof.
  intros H1 Hserve H2 Hphone.
  apply login_accepted in H1 as (_ & Hsel1 & _).
  apply login_accepted in H2 as (Hs3 & Hsel2 & _).
  destruct (users_grow_serve between s1) as (extra & Hgrow).
  rewrite Hserve in Hgrow.
  assert (Hfound : Sql.select_user (User.phone u1) s2 = Some u1).
  { unfold Sql.select_user in *. rewrite Hgrow. now apply find_app_hit. }
  rewrite Hphone in Hs3, Hsel2.
  destruct (@insert_known_phone (User.phone u1) (now r2) s2) as (Hsame & Hsel).
  { eapply find_existsb. exact Hfound. }
  rewrite <- Hs3 in Hsame, Hsel.
  split; [congruence | exact Hsame].
Qed.

Lemma login_is_remembered_witness :
  exists u,
    fst (handle_login (login_at "9876543210" "654321" "2024-02-01 08:00:00")
           (snd (serve [booking_request [("pickup_location", JStr "Station")];
                        login_at "5550001111" "111111" "2024-01-15 09:00:00"]
                   (snd (handle_login
                           (login_at "9876543210" "123456"
                                     "2024-01-01 10:00:00")
                           empty_store)))))
    = logged_in u /\
    u = User.Row 1 "9876543210" "2024-01-01 10:00:00".
Proof.
  eexists. split; [reflexivity|].
  refine (proj1 (@login_is_remembered
            (login_at "9876543210" "123456" "2024-01-01 10:00:00")
            empty_store (User.Row 1 "9876543210" "2024-01-01 10:00:00") _
            [booking_request [("pickup_location", JStr "Station")];
             login_at "5550001111" "111111" "2024-01-15 09:00:00"]
            _ (login_at "9876543210" "654321" "2024-02-01 08:00:00")
            _ _ eq_refl eq_refl eq_refl eq_refl)).
Defined.

Lemma sorted_ids_injective l : forall (a b : User.t),
  StronglySorted Z.lt (List.map User.id l) ->
  In a l -> In b l -> User.id a = User.id b -> a = b.
Proof.
  induction l as [|x l IH]; intros a b Hs Ha Hb Hid; [destruct Ha|].
  cbn [List.map] in Hs. apply StronglySorted_inv in Hs as [Hs Hx].
  rewrite Forall_forall in Hx.
  destruct Ha as [<-|Ha], Hb as [<-|Hb]; try reflexivity.
  - specialize (Hx (User.id b) (in_map _ _ _ Hb)). lia.
  - specialize (Hx (User.id a) (in_map _ _ _ Ha)). lia.
  - now apply IH.
Qed.

Lemma login_keeps_order r s :
  users_ok s -> users_ok (snd (handle_login r s)).
Proof.
  intros H.
  destruct (login_outcome r s)
    as [(e & ->) | [(d & ->) | (phone & v & -> & _ & Hne & d & ->)]];
    try exact H.
  cbn [snd]. apply insert_user_ok; [|exact H]. now apply trimmed_strip.
Qed.

Lemma login_grows r s :
  exists extra, users (snd (handle_login r s)) = (users s ++ extra)%list.
Proof.
  destruct (login_outcome r s)
    as [(e & ->) | [(d & ->) | (phone & v & -> & _)]];
    try (exists []; cbn [snd]; now rewrite app_nil_r).
  cbn [snd]. unfold Sql.insert_or_ignore_user. cbn [users].
  destruct (existsb _ _); [exists []; now rewrite app_nil_r | eauto].
Qed.

(** X13: On a users table that is in order, two phones never share an id: two
    logins that are answered with different phones are answered with
    different ids, whatever requests were served in between. *)
Theorem different_phones_different_ids r1 s u1 s1 between s2 r2 u2 s3 :
  users_ok s ->
  handle_login r1 s = (logged_in u1, s1) ->
  snd (serve between s1) = s2 ->
  handle_login r2 s2 = (logged_in u2, s3) ->
  User.phone u1 <> User.phone u2 ->
  User.id u1 <> User.id u2.
Proof.
  intros Hok H1 Hserve H2 Hphone Hid. apply Hphone. f_equal.
  assert (Hok1 : users_ok s1)
    by (pose proof (login_keeps_order r1 Hok) as H; now rewrite H1 in H).
  assert (Hok2 : users_ok s2)
    by (rewrite <- Hserve; now apply users_ok_serve).
  assert (Hok3 : users_ok s3)
    by (pose proof (login_keeps_order r2 Hok2) as H; now rewrite H2 in H).
  destruct (users_grow_serve between s1) as (e1 & Hg1).
  rewrite Hserve in Hg1.
  destruct (login_grows r2 s2) as (e2 & Hg2). rewrite H2 in Hg2.
  cbn [snd] in Hg2.
  apply login_accepted in H1 as (_ & _ & Hin1).
  apply login_accepted in H2 as (_ & _ & Hin2).
  apply (@sorted_ids_injective (users s3)).
  - apply Hok3.
  - rewrite Hg2, Hg1. apply in_or_app. left. apply in_or_app. now left.
  - exact Hin2.
  - exact Hid.
Qed.

Lemma different_phones_different_ids_witness :
  User.id (User.Row 1 "9876543210" "2024-01-01 10:00:00")
  <> User.id (User.Row 2 "5550001111" "2024-01-15 09:00:00").
Proof.
  refine (@different_phones_different_ids
            (login_at "9876543210" "123456" "2024-01-01 10:00:00")
            empty_store _ _
            [booking_request [("pickup_location", JStr "Station")]] _
            (login_at "5550001111" "111111" "2024-01-15 09:00:00")
            _ _ users_ok_empty eq_refl eq_refl eq_refl _).
  discriminate.
Defined.

(** X14: The otp only opens the door: two logins at the same time under the
    same phone, each with an otp that is 6 characters long once stripped,
    get the same answer and leave the same store, whatever the 6
    characters are. *)
Theorem any_six_characters_do r1 r2 s p o1 o2 :
  field r1 "phone" = Some p -> field r2 "phone" = Some p ->
  field r1 "otp" = Some (Text o1) -> field r2 "otp" = Some (Text o2) ->
  Str.len (Str.strip o1) = 6 -> Str.len (Str.strip o2) = 6 ->
  now r1 = now r2 ->
  handle_login r1 s = handle_login r2 s.
Proof.
  intros Hp1 Hp2 Ho1 Ho2 H1 H2 Hnow.
  rewrite (@handle_login_readings r1 s p (Text o1) Hp1 Ho1),
    (@handle_login_readings r2 s p (Text o2) Hp2 Ho2).
  cbv zeta. cbn [text]. rewrite H1, H2, Hnow.
  assert (E1 : Str.is_empty (Str.strip o1) = false)
    by (destruct (Str.strip o1); [discriminate H1 | reflexivity]).
  assert (E2 : Str.is_empty (Str.strip o2) = false)
    by (destruct (Str.strip o2); [discriminate H2 | reflexivity]).
  now rewrite E1, E2.
Qed.

Lemma any_six_characters_do_witness :
  handle_login (login_request "9876543210" "123456") empty_store
  = handle_login (login_request "9876543210" " ab!de3 ") empty_store.
Proof.
  apply (@any_six_characters_do _ _ _ (Text "9876543210") "123456" " ab!de3 ");
    reflexivity.
Defined.

End AccountFacts.

(** ** The rows of a booking and of the blood-bank listing *)

Module ListingFacts.
Import StrFacts RequestFacts BookingFacts SortFacts DoctorFacts InvariantFacts.

(** X15: An accepted booking adds exactly one row, at the end of the table: it
    holds the id that is answered, the three fields stripped, the status
    "BOOKED" and the time of the request.  The id is the id of no row that
    was there, and the other tables are left as they are. *)
Theorem booking_adds_one_row r s p q d :
  field r "phone" = Some p -> field r "pickup_location" = Some q ->
  field r "destination" = Some d ->
  blank q = false ->
  exists id s',
    handle_ambulance_book r s = (booked id, s') /\
    ambulance_bookings s'
    = (ambulance_bookings s
         ++ [Booking.Row id (Some (Str.strip (text p)))
                         (Some (Str.strip (text q)))
                         (Some (Str.strip (text d)))
                         (Some "BOOKED") (now r)])%list /\
    ~ In id (List.map Booking.id (ambulance_bookings s)) /\
    users s' = users s /\ doctors s' = doctors s /\
    blood_banks s' = blood_banks s.
Proof.
  intros Hp Hq Hd Hb.
  rewrite (@handle_ambulance_book_readings r s p q d Hp Hq Hd), Hb.
  unfold Sql.insert_booking.
  eexists. eexists. split; [reflexivity|].
  cbn [ambulance_bookings users doctors blood_banks].
  repeat split.
  intros Hin. apply (next_rowid_fresh (ambulance_bookings_seq s)) in Hin. lia.
Qed.

Lemma booking_adds_one_row_witness :
  exists id s',
    handle_ambulance_book
      (booking_request [("phone", JStr " 98765 ");
                        ("pickup_location", JStr " MG Road ")])
      (init_db empty_store)
    = (booked id, s') /\
    ambulance_bookings s'
    = [Booking.Row id (Some "98765") (Some "MG Road") (Some "")
                   (Some "BOOKED") "2024-01-01 10:00:00"].
Proof.
  destruct (@booking_adds_one_row
              (booking_request [("phone", JStr " 98765 ");
                                ("pickup_location", JStr " MG Road ")])
              (init_db empty_store)
              (Text " 98765 ") (Text " MG Road ") Missing
              eq_refl eq_refl eq_refl eq_refl)
    as (id & s' & H & Hrows & _).
  exists id, s'. split; [exact H | exact Hrows].
Defined.

Lemma filter_in_group group (b : Bank.t) :
  String.eqb (Bank.blood_group b) group = true <-> Bank.blood_group b = group.
Proof. apply String.eqb_eq. Qed.

(** X16: The banks that are listed for a group are the rows of that group, all
    of them and each once, a bank without units included, in ascending
    order of distance, and in the order of the table where the distance is
    the same. *)
Theorem banks_listing group s :
  (forall b, In b (select_banks group s)
             <-> In b (blood_banks s) /\ Bank.blood_group b = group) /\
  Permutation (select_banks group s)
    (filter (fun b => String.eqb (Bank.blood_group b) group) (blood_banks s)) /\
  StronglySorted
    (fun a b => (Bank.distance_km a <= Bank.distance_km b)%Q)
    (select_banks group s) /\
  (forall x,
     filter (fun b => Qeq_bool (Bank.distance_km b) x) (select_banks group s)
     = filter (fun b => Qeq_bool (Bank.distance_km b) x)
         (filter (fun b => String.eqb (Bank.blood_group b) group)
                 (blood_banks s))).
Proof.
  unfold select_banks. split; [|split; [|split]].
  - intros b. split; intros H.
    + apply (Permutation_in _ (order_by_perm _ _)) in H.
      apply filter_In in H as [Hin Hg]. now apply filter_in_group in Hg.
    + destruct H as [Hin Hg]. apply filter_in_group in Hg.
      eapply Permutation_in; [apply Permutation_sym, order_by_perm|].
      apply filter_In. now split.
  - apply order_by_perm.
  - apply order_by_strongly_sorted.
  - intros x. apply order_by_stable.
Qed.

(** X17: The doctors and the blood banks are fixed when the server starts: the
    requests it serves change neither table, and neither is ever empty. *)
Theorem reference_tables_are_fixed rs s :
  doctors (snd (run_server rs s)) = doctors (init_db s) /\
  blood_banks (snd (run_server rs s)) = blood_banks (init_db s) /\
  doctors (snd (run_server rs s)) <> [] /\
  blood_banks (snd (run_server rs s)) <> [].
Proof.
  unfold run_server.
  destruct (serve_reference_tables rs (init_db s)) as [Hd Hb].
  rewrite Hd, Hb. repeat split; apply init_db_not_empty.
Qed.

End ListingFacts.

(** ** White space around a field *)

Module PaddingFacts.
Import Str StrFacts RequestFacts BookingFacts.

Lemma rstrip_app_all_space s w :
  all_space w = true -> rstrip (s ++ w) = rstrip s.
Proof.
  intros Hw. induction s as [|c s IH]; cbn [append].
  - now apply rstrip_empty.
  - cbn [rstrip]. now rewrite IH.
Qed.

Lemma lstrip_app_text s w :
  all_space s = false -> lstrip (s ++ w) = (lstrip s ++ w)%string.
Proof.
  induction s as [|c s IH]; cbn [all_space append lstrip]; [discriminate|].
  destruct (isspace c); [exact IH | reflexivity].
Qed.

(** White space before and after a text does not change what [strip]
    returns. *)
Lemma strip_padding w1 s w2 :
  all_space w1 = true -> all_space w2 = true ->
  strip (w1 ++ s ++ w2) = strip s.
Proof.
  intros H1 H2. unfold strip. rewrite lstrip_app_space by assumption.
  destruct (all_space s) eqn:E.
  - rewrite lstrip_app_space by assumption.
    apply lstrip_empty in E as ->. apply lstrip_empty in H2 as ->.
    reflexivity.
  - rewrite lstrip_app_text by assumption.
    now apply rstrip_app_all_space.
Qed.

(** X18: The booking handler does not see white space around its fields: a
    request whose three fields are those of another request with white
    space added before and after gets the same answer and leaves the same
    store. *)
Theorem booking_ignores_padding r1 r2 s p q d a1 a2 b1 b2 c1 c2 :
  field r1 "phone" = Some (Text p) ->
  field r1 "pickup_location" = Some (Text q) ->
  field r1 "destination" = Some (Text d) ->
  field r2 "phone" = Some (Text (a1 ++ p ++ a2)) ->
  field r2 "pickup_location" = Some (Text (b1 ++ q ++ b2)) ->
  field r2 "destination" = Some (Text (c1 ++ d ++ c2)) ->
  forallb all_space [a1; a2; b1; b2; c1; c2] = true ->
  now r1 = now r2 ->
  handle_ambulance_book r1 s = handle_ambulance_book r2 s.
Proof.
  intros Hp1 Hq1 Hd1 Hp2 Hq2 Hd2 Hw Hnow.
  cbn [forallb] in Hw.
  repeat (apply andb_true_iff in Hw as [? Hw]).
  rewrite (@handle_ambulance_book_readings r1 s _ _ _ Hp1 Hq1 Hd1),
    (@handle_ambulance_book_readings r2 s _ _ _ Hp2 Hq2 Hd2).
  unfold blank. cbn [text].
  rewrite !strip_padding by assumption. now rewrite Hnow.
Qed.

Lemma booking_ignores_padding_witness :
  handle_ambulance_book
    (booking_request [("phone", JStr "98765");
                      ("pickup_location", JStr "MG Road");
                      ("destination", JStr "City Hospital")])
    empty_store
  = handle_ambulance_book
      (booking_request [("phone", JStr "  98765");
                        ("pickup_location", JStr " MG Road  ");
                        ("destination", JStr "City Hospital ")])
      empty_store.
Proof.
  apply (@booking_ignores_padding _ _ _ "98765" "MG Road" "City Hospital"
           "  " "" " " "  " "" " "); reflexivity.
Defined.

End PaddingFacts.
